(** * zoho-airflow: the Zoho Creator and Zoho Inventory hooks and the Creator operator

    A shallow embedding of
      - plugins/hooks/zoho_creator.py      (Module [Creator]),
      - plugins/hooks/zoho_inventory.py    (Module [Inventory]),
      - plugins/operators/zoho_creator.py  (Module [Operator]),
    and the properties of their token cache, request dispatch, retry and
    bulk-export loops.

    Conventions of the embedding.
      - Every method is embedded on its own, as it executes when it is called.
        What happens while a module is loaded is not part of the embedding:
        in zoho_inventory.py, the [logger] and [logging] named in the
        decorator of [make_request], and the indentation of the docstring of
        [contact_persons].
      - A method is a computation in a state monad with exceptions; the state
        is the object's attributes together with a [World]: the clock, the
        script of answers of the remote services, and the trace of what the
        program did to them.
      - A Python call whose arguments fit the callee's parameters is a Rocq
        application.  A call that does not fit cannot be written as one: it
        goes through [bind_call], Python's argument binding.  Likewise a name
        that the enclosing scopes bind is a Rocq variable, and a name they do
        not bind goes through [load_name].
      - Calls to [self.log] only write to the log and are left out. *)

From Stdlib Require Import ZArith List String Ascii Bool Lia DecimalString.
From Stdlib Require Import Init.Byte.
Import ListNotations.

Local Open Scope list_scope.
Local Open Scope string_scope.
Local Open Scope Z_scope.

Set Warnings "-register-all".

(** ** Python values *)

Inductive pyval : Type :=
| VNone
| VBool (b : bool)
| VInt (z : Z)
| VStr (s : string)
| VList (l : list pyval)
| VDict (d : list (string * pyval))
| VDatetime (t : Z).  (* a naive datetime, in microseconds since 1970-01-01 *)

(** A dict keeps its keys in insertion order, as Python's does. *)
Definition pydict := list (string * pyval).

Inductive exn : Type :=
| TypeError | NameError | ValueError | KeyError | AttributeError | IndexError
| UnboundLocalError
| JSONDecodeError     (* json / response.json() on text that is not JSON *)
| HTTPError           (* requests: raise_for_status on a 4xx or 5xx answer *)
| ConnectionError     (* requests: no answer *)
| RetryError          (* tenacity: the last allowed attempt failed *)
| AirflowNotFound     (* airflow: no connection with that id *)
| BadZipFile | ParserError
| ExternalError (what : string).

Inductive outcome (A : Type) : Type :=
| Ret (a : A)
| Raise (e : exn)
| OutOfFuel.
Arguments Ret {A} a.
Arguments Raise {A} e.
Arguments OutOfFuel {A}.

Fixpoint dict_get {A : Type} (k : string) (d : list (string * A)) : option A :=
  match d with
  | [] => None
  | (k', v) :: rest => if String.eqb k k' then Some v else dict_get k rest
  end.

(** [d[k] = v]: an existing key keeps its place, a new one goes last. *)
Fixpoint dict_set {A : Type} (k : string) (v : A) (d : list (string * A))
  : list (string * A) :=
  match d with
  | [] => [(k, v)]
  | (k', v') :: rest =>
      if String.eqb k k' then (k', v) :: rest else (k', v') :: dict_set k v rest
  end.

(** [bool(v)] *)
Definition truthy (v : pyval) : bool :=
  match v with
  | VNone => false
  | VBool b => b
  | VInt z => negb (z =? 0)
  | VStr s => negb (String.eqb s EmptyString)
  | VList l => match l with [] => false | _ => true end
  | VDict d => match d with [] => false | _ => true end
  | VDatetime _ => true
  end.

Definition is_none (v : pyval) : bool :=
  match v with VNone => true | _ => false end.

(** [v.get(k)]: only a dict has the method. *)
Definition py_get (v : pyval) (k : string) : outcome pyval :=
  match v with
  | VDict d => match dict_get k d with Some x => Ret x | None => Ret VNone end
  | _ => Raise AttributeError
  end.

(** [v[k]] with a string key. *)
Definition py_getitem (v : pyval) (k : string) : outcome pyval :=
  match v with
  | VDict d => match dict_get k d with Some x => Ret x | None => Raise KeyError end
  | _ => Raise TypeError
  end.

(** [v == s] for a string literal [s] *)
Definition eq_str (v : pyval) (s : string) : bool :=
  match v with VStr s' => String.eqb s' s | _ => false end.

(** [v in [a, b, ...]] for integer literals; [True == 1] and [False == 0]. *)
Definition in_ints (v : pyval) (l : list Z) : bool :=
  match v with
  | VInt z => existsb (Z.eqb z) l
  | VBool b => existsb (Z.eqb (if b then 1 else 0)) l
  | _ => false
  end.

Definition in_strs (s : string) (l : list string) : bool :=
  existsb (String.eqb s) l.

(** ** [str] and [repr]

    Strings inside a list or dict print as their [repr]: quoted, with
    backslash, newline, carriage return and tab escaped.  Other unprintable
    or non-ASCII bytes are printed as they are. *)

Definition dquote : ascii := ascii_of_nat 34.
Definition squote : ascii := ascii_of_nat 39.
Definition backslash : ascii := ascii_of_nat 92.

Fixpoint has_char (c : ascii) (s : string) : bool :=
  match s with
  | EmptyString => false
  | String c' rest => Ascii.eqb c c' || has_char c rest
  end.

Fixpoint escape (q : ascii) (s : string) : string :=
  match s with
  | EmptyString => EmptyString
  | String c rest =>
      let tail := escape q rest in
      if Ascii.eqb c backslash then String backslash (String backslash tail)
      else if Ascii.eqb c q then String backslash (String q tail)
      else if Ascii.eqb c (ascii_of_nat 10) then String backslash (String "n" tail)
      else if Ascii.eqb c (ascii_of_nat 13) then String backslash (String "r" tail)
      else if Ascii.eqb c (ascii_of_nat 9) then String backslash (String "t" tail)
      else String c tail
  end.

Definition repr_str (s : string) : string :=
  let q := if has_char squote s && negb (has_char dquote s) then dquote else squote in
  String q (escape q s ++ String q EmptyString).

Definition str_of_Z (z : Z) : string := NilZero.string_of_int (Z.to_int z).

Fixpoint join (sep : string) (l : list string) : string :=
  match l with
  | [] => EmptyString
  | [x] => x
  | x :: rest => x ++ sep ++ join sep rest
  end.

(** Days since 1970-01-01 to (year, month, day) in the proleptic Gregorian
    calendar. *)
Definition civil_of_days (days : Z) : Z * Z * Z :=
  let z := days + 719468 in
  let era := z / 146097 in
  let doe := z - era * 146097 in
  let yoe := (doe - doe / 1460 + doe / 36524 - doe / 146096) / 365 in
  let doy := doe - (365 * yoe + yoe / 4 - yoe / 100) in
  let mp := (5 * doy + 2) / 153 in
  let d := doy - (153 * mp + 2) / 5 + 1 in
  let m := if mp <? 10 then mp + 3 else mp - 9 in
  let y := yoe + era * 400 in
  (if m <=? 2 then y + 1 else y, m, d).

Fixpoint pad_left (n : nat) (s : string) : string :=
  match n with
  | O => s
  | S n' => if (Nat.ltb (String.length s) n) then pad_left n' ("0" ++ s) else s
  end.

Definition usec : Z := 1000000.
Definition usec_per_day : Z := 86400 * usec.

Record datetime_fields := {
  dt_year : Z; dt_month : Z; dt_day : Z;
  dt_hour : Z; dt_minute : Z; dt_second : Z; dt_microsecond : Z }.

Definition fields_of (t : Z) : datetime_fields :=
  let '(y, m, d) := civil_of_days (t / usec_per_day) in
  let r := t mod usec_per_day in
  let secs := r / usec in
  {| dt_year := y; dt_month := m; dt_day := d;
     dt_hour := secs / 3600; dt_minute := (secs / 60) mod 60;
     dt_second := secs mod 60; dt_microsecond := r mod usec |}.

(** [str(datetime)] is [isoformat(sep=' ')]. *)
Definition str_datetime (t : Z) : string :=
  let f := fields_of t in
  pad_left 4 (str_of_Z (dt_year f)) ++ "-" ++ pad_left 2 (str_of_Z (dt_month f))
  ++ "-" ++ pad_left 2 (str_of_Z (dt_day f)) ++ " "
  ++ pad_left 2 (str_of_Z (dt_hour f)) ++ ":" ++ pad_left 2 (str_of_Z (dt_minute f))
  ++ ":" ++ pad_left 2 (str_of_Z (dt_second f))
  ++ (if dt_microsecond f =? 0 then EmptyString
      else "." ++ pad_left 6 (str_of_Z (dt_microsecond f))).

Definition repr_datetime (t : Z) : string :=
  let f := fields_of t in
  "datetime.datetime("
  ++ join ", " (map str_of_Z
       ([dt_year f; dt_month f; dt_day f; dt_hour f; dt_minute f]
        ++ (if dt_microsecond f =? 0
            then (if dt_second f =? 0 then [] else [dt_second f])
            else [dt_second f; dt_microsecond f]))%list)
  ++ ")".

Fixpoint py_repr (v : pyval) : string :=
  match v with
  | VNone => "None"
  | VBool b => if b then "True" else "False"
  | VInt z => str_of_Z z
  | VStr s => repr_str s
  | VList l => "[" ++ join ", " (map py_repr l) ++ "]"
  | VDict d =>
      "{" ++ join ", " (map (fun kv => match kv with
                                       | (k, x) => repr_str k ++ ": " ++ py_repr x
                                       end) d) ++ "}"
  | VDatetime t => repr_datetime t
  end.

(** [str(v)], also what an f-string prints for [{v}]. *)
Definition py_str (v : pyval) : string :=
  match v with
  | VStr s => s
  | VDatetime t => str_datetime t
  | _ => py_repr v
  end.

Definition upper_char (c : ascii) : ascii :=
  let n := nat_of_ascii c in
  if (Nat.leb 97 n && Nat.leb n 122)%bool then ascii_of_nat (n - 32) else c.

(** [s.upper()] on ASCII text *)
Fixpoint upper (s : string) : string :=
  match s with
  | EmptyString => EmptyString
  | String c rest => String (upper_char c) (upper rest)
  end.

(** ** Calls and names that do not fit

    [bind_call] binds the arguments of a call to the parameters of the callee
    ([self] left out), as Python does before it runs the body: positional
    arguments first, then keywords, then defaults.  It raises [TypeError] on
    too many positional arguments, on a keyword that is no parameter or that
    is already bound, and on a parameter left without a value. *)

Record param := { p_name : string; p_default : option pyval }.
Definition signature := list param.

Fixpoint bind_positional (sig : signature) (pos : list pyval)
  : outcome (pydict * signature) :=
  match pos, sig with
  | [], _ => Ret ([], sig)
  | _ :: _, [] => Raise TypeError
  | v :: pos', p :: sig' =>
      match bind_positional sig' pos' with
      | Ret (bound, rest) => Ret ((p_name p, v) :: bound, rest)
      | Raise e => Raise e
      | OutOfFuel => OutOfFuel
      end
  end.

Fixpoint bind_keywords (rest : signature) (kw : pydict) (bound : pydict)
  : outcome pydict :=
  match kw with
  | [] => Ret bound
  | (k, v) :: kw' =>
      match dict_get k bound with
      | Some _ => Raise TypeError
      | None =>
          if existsb (fun p => String.eqb k (p_name p)) rest
          then bind_keywords rest kw' (dict_set k v bound)
          else Raise TypeError
      end
  end.

Fixpoint bind_defaults (rest : signature) (bound : pydict) : outcome pydict :=
  match rest with
  | [] => Ret bound
  | p :: rest' =>
      match dict_get (p_name p) bound, p_default p with
      | Some _, _ => bind_defaults rest' bound
      | None, Some v => bind_defaults rest' (dict_set (p_name p) v bound)
      | None, None => Raise TypeError
      end
  end.

Definition bind_call (sig : signature) (pos : list pyval) (kw : pydict)
  : outcome pydict :=
  match bind_positional sig pos with
  | Ret (bound, rest) =>
      match bind_keywords rest kw bound with
      | Ret bound' => bind_defaults rest bound'
      | other => other
      end
  | Raise e => Raise e
  | OutOfFuel => OutOfFuel
  end.

(** The value of a bound argument. *)
Definition arg (bound : pydict) (name : string) : pyval :=
  match dict_get name bound with Some v => v | None => VNone end.

(** A scope lists the names a function body can see: its locals, then the
    names the module binds.  A name is bound to data or to an object of no
    interest here (a module, a class, a function).  Builtins are not listed:
    no name looked up below is one. *)
Inductive binding := Data (v : pyval) | Object.

Definition load_name (scope : list (string * binding)) (x : string)
  : outcome binding :=
  match dict_get x scope with
  | Some b => Ret b
  | None => Raise NameError
  end.

Definition objects (names : list string) : list (string * binding) :=
  map (fun n => (n, Object)) names.

(** ** The monad: state and exceptions *)

Definition M (S A : Type) : Type := S -> outcome A * S.

Definition ret {S A : Type} (a : A) : M S A := fun s => (Ret a, s).

Definition bind {S A B : Type} (c : M S A) (k : A -> M S B) : M S B :=
  fun s =>
    match c s with
    | (Ret a, s') => k a s'
    | (Raise e, s') => (Raise e, s')
    | (OutOfFuel, s') => (OutOfFuel, s')
    end.

Definition raise {S A : Type} (e : exn) : M S A := fun s => (Raise e, s).
Definition out_of_fuel {S A : Type} : M S A := fun s => (OutOfFuel, s).

(** A computation without effects, run in place. *)
Definition pure {S A : Type} (o : outcome A) : M S A := fun s => (o, s).

Definition gets {S A : Type} (f : S -> A) : M S A := fun s => (Ret (f s), s).
Definition modify {S : Type} (f : S -> S) : M S unit := fun s => (Ret tt, f s).

Declare Scope monad_scope.
Delimit Scope monad_scope with monad.
Notation "x <- c ;; k" := (bind c (fun x => k))
  (at level 61, c at next level, right associativity) : monad_scope.
Notation "c ;; k" := (bind c (fun _ => k))
  (at level 61, right associativity) : monad_scope.
Local Open Scope monad_scope.

(** ** The world outside the program *)

Record Response := {
  status_code : Z;
  json_body : option pyval;    (* what [response.json()] parses, if it parses *)
  content : list byte }.

Record Request := {
  verb : string;
  url : string;
  params : option pydict;
  headers : option pydict;
  json : option pyval;
  files : option pyval;
  stream : bool }.

Inductive Event :=
| EvHttp (r : Request)
| EvSleep (seconds : Z)
| EvQuery (sql : string).

(** An Airflow connection; [extra] is what [json.loads(conn.get_extra())]
    gives, if the text is JSON. *)
Record Connection := {
  login : pyval;
  password : pyval;
  extra : option pyval }.

Record World := {
  now : Z;                                      (* the clock, in microseconds *)
  trace : list Event;                           (* oldest first *)
  http_script : list (Z * (exn + Response));    (* time taken, answer *)
  connections : list (string * Connection);
  bigquery_script : list (exn + pyval) }.

Definition utcnow : M World Z := gets now.

(** [time.sleep(seconds)] *)
Definition sleep (seconds : Z) : M World unit :=
  modify (fun w =>
    {| now := now w + seconds * usec;
       trace := (trace w ++ [EvSleep seconds])%list;
       http_script := http_script w;
       connections := connections w;
       bigquery_script := bigquery_script w |}).

(** [requests.request]: the next answer of the script, or no answer at all
    when the script is over.  The request is on the trace either way. *)
Definition request (r : Request) : M World Response :=
  fun w =>
    match http_script w with
    | [] =>
        (Raise ConnectionError,
         {| now := now w; trace := (trace w ++ [EvHttp r])%list;
            http_script := []; connections := connections w;
            bigquery_script := bigquery_script w |})
    | (took, answer) :: rest =>
        let w' := {| now := now w + took; trace := (trace w ++ [EvHttp r])%list;
                     http_script := rest; connections := connections w;
                     bigquery_script := bigquery_script w |} in
        match answer with
        | inl e => (Raise e, w')
        | inr resp => (Ret resp, w')
        end
    end.

(** The world after [r] was sent and answered in [took] microseconds. *)
Definition answered (w : World) (r : Request) (took : Z)
  (rest : list (Z * (exn + Response))) : World :=
  {| now := now w + took; trace := (trace w ++ [EvHttp r])%list;
     http_script := rest; connections := connections w;
     bigquery_script := bigquery_script w |}.

(** [response.json()] *)
Definition response_json (r : Response) : outcome pyval :=
  match json_body r with
  | Some v => Ret v
  | None => Raise JSONDecodeError
  end.

(** [response.raise_for_status()] *)
Definition raise_for_status (r : Response) : outcome unit :=
  if (400 <=? status_code r) && (status_code r <? 600)
  then Raise HTTPError else Ret tt.

(** [BaseHook.get_connection(conn_id)] *)
Definition get_connection (conn_id : string) : M World Connection :=
  fun w =>
    match dict_get conn_id (connections w) with
    | Some c => (Ret c, w)
    | None => (Raise AirflowNotFound, w)
    end.

(** [eval(query_bigquery(get_sql_filepath(sql))["token"].iloc[0])]: the next
    exported value, or the exception met on the way. *)
Definition query_token (sql : string) : M World pyval :=
  fun w =>
    let w' rest := {| now := now w; trace := (trace w ++ [EvQuery sql])%list;
                      http_script := http_script w; connections := connections w;
                      bigquery_script := rest |} in
    match bigquery_script w with
    | [] => (Raise (ExternalError "bigquery"), w' [])
    | inl e :: rest => (Raise e, w' rest)
    | inr v :: rest => (Ret v, w' rest)
    end.

(** ** Tables

    A frame is the list of its rows; the frames of one report have the same
    columns, so [append] is the concatenation of the rows and the empty frame
    [pd.DataFrame()] is [[]]. *)

Inductive cell := CNaN | CInt (z : Z) | CStr (s : string) | CBool (b : bool).
Definition Row := list cell.
Definition DataFrame := list Row.

Definition cell_eq_dec (a b : cell) : {a = b} + {a <> b}.
Proof.
  decide equality; [apply Z.eq_dec | apply string_dec | apply Bool.bool_dec].
Defined.

Definition Row_eq_dec : forall a b : Row, {a = b} + {a <> b} :=
  list_eq_dec cell_eq_dec.

(** What [download_workflow] hands back: [{"df": ..., "cursor": ...}]. *)
Record Page := { page_df : DataFrame; page_cursor : pyval }.

(** * plugins/hooks/zoho_creator.py *)

Module Creator.

Definition report_creator : string := "username_of_report_creator".

(** The names the module binds (its imports and definitions). *)
Definition module_scope : list (string * binding) :=
  objects ["io"; "json"; "time"; "zipfile"; "datetime"; "pd"; "requests";
           "BaseHook"; "json_normalize"]
  ++ [("report_creator", Data (VStr report_creator)); ("ZohoCreatorHook", Object)].

(** [self._token] *)
Record Token := { token : pyval; created_at : Z }.

Record Hook := {
  conn_id : string;
  endpoint : string;
  bulk_endpoint : string;
  _token : Token }.

(** [datetime(2019, 1, 1, 0, 0, 0, 0)] *)
Definition datetime_2019_01_01 : Z := 1546300800 * usec.

Definition init_sig : signature := [{| p_name := "conn_id"; p_default := None |}].

Definition init (conn_id : string) : Hook :=
  {| conn_id := conn_id;
     endpoint := "https://creator.zoho.eu/api/v2/";
     bulk_endpoint := "https://creator.zoho.eu/api/bulk/v2";
     _token := {| token := VNone; created_at := datetime_2019_01_01 |} |}.

Record St := { self : Hook; world : World }.

Definition liftW {A : Type} (c : M World A) : M St A :=
  fun s => let (o, w) := c (world s) in (o, {| self := self s; world := w |}).

Definition with_token (h : Hook) (t : Token) : Hook :=
  {| conn_id := conn_id h; endpoint := endpoint h;
     bulk_endpoint := bulk_endpoint h; _token := t |}.

Definition set_token (t : Token) : M St unit :=
  modify (fun s => {| self := with_token (self s) t; world := world s |}).

Definition get_conn : M St Connection :=
  id <- gets (fun s => conn_id (self s));;
  liftW (get_connection id).

Definition token_url : string := "https://accounts.zoho.eu/oauth/v2/token".

Definition get_token : M St Token :=
  now1 <- liftW utcnow;;
  cached <- gets (fun s => _token (self s));;
  if (now1 - created_at cached) <=? 3600 * usec then ret cached
  else
    conn <- get_conn;;
    extra_json <- pure (match extra conn with
                        | Some v => Ret v
                        | None => Raise JSONDecodeError
                        end);;
    refresh_token <- pure (py_getitem extra_json "refresh_token");;
    let params := [("refresh_token", refresh_token);
                   ("client_secret", password conn);
                   ("grant_type", VStr "refresh_token");
                   ("client_id", login conn)] in
    response <- liftW (request {| verb := "POST"; url := token_url;
                                  params := Some params; headers := None;
                                  json := None; files := None; stream := false |});;
    new_token <- pure (response_json response);;
    access_token <- pure (py_getitem new_token "access_token");;
    now2 <- liftW utcnow;;
    set_token {| token := access_token; created_at := now2 |};;
    gets (fun s => _token (self s)).

(** The check of [get_token]: at most 3600 seconds since the token was
    made. *)
Definition token_valid (s : St) : Prop :=
  now (world s) - created_at (_token (self s)) <= 3600 * usec.

(** The request that [get_token] sends for a new token. *)
Definition token_request (conn : Connection) (refresh_token : pyval) : Request :=
  {| verb := "POST"; url := token_url;
     params := Some [("refresh_token", refresh_token);
                     ("client_secret", password conn);
                     ("grant_type", VStr "refresh_token");
                     ("client_id", login conn)];
     headers := None; json := None; files := None; stream := false |}.

Definition get_headers_sig : signature := [].

Definition get_headers : M St pydict :=
  t <- get_token;;
  ret [("Authorization", VStr ("Zoho-oauthtoken " ++ py_str (token t)))].

Definition bulk_url_of (h : Hook) (app_name view_name : string) : string :=
  bulk_endpoint h ++ "/" ++ report_creator ++ "/" ++ app_name ++ "/report/"
  ++ view_name ++ "/read".

Definition query_of (cursor : pyval) : pydict :=
  let query := [("max_records", VInt 200000)] in
  if truthy cursor then dict_set "record_cursor" cursor query else query.

Definition create_bulk_api_read_job (app_name view_name : string) (cursor : pyval)
  : M St pydict :=
  bulk_url <- gets (fun s => bulk_url_of (self s) app_name view_name);;
  let query := query_of cursor in
  hdrs <- get_headers;;
  response <- liftW (request {| verb := "POST"; url := bulk_url; params := None;
                                headers := Some hdrs;
                                json := Some (VDict [("query", VDict query)]);
                                files := None; stream := false |});;
  pure (raise_for_status response);;
  body <- pure (response_json response);;
  details <- pure (py_get body "details");;
  job_id <- pure (py_get details "id");;
  ret [("url", VStr bulk_url); ("job_id", job_id); ("cursor", cursor)].

(** The request that [create_bulk_api_read_job] sends. *)
Definition job_request (bulk_url : string) (hdrs query : pydict) : Request :=
  {| verb := "POST"; url := bulk_url; params := None; headers := Some hdrs;
     json := Some (VDict [("query", VDict query)]); files := None;
     stream := false |}.

(** [job.get(k)] on the dict [job] *)
Definition job_get (job : pydict) (k : string) : pyval :=
  match dict_get k job with Some v => v | None => VNone end.

Definition check_bulk_job (job : pydict) : M St pyval :=
  let job_url := py_str (job_get job "url") ++ "/" ++ py_str (job_get job "job_id") in
  (* headers=self.get_headers(job.get("cursor")) *)
  pure (bind_call get_headers_sig [job_get job "cursor"] []);;
  hdrs <- get_headers;;
  response <- liftW (request {| verb := "GET"; url := job_url; params := None;
                                headers := Some hdrs; json := None;
                                files := None; stream := false |});;
  pure (response_json response).

Definition download_data (download_url : pyval) : M St Response :=
  hdrs <- get_headers;;
  response <- liftW (request {| verb := "GET";
                                url := "https://creator.zoho.eu" ++ py_str download_url;
                                params := None; headers := Some hdrs; json := None;
                                files := None; stream := true |});;
  pure (raise_for_status response);;
  ret response.

Section Libraries.

(** [zipfile.ZipFile(io.BytesIO(databytes))]: the members of the archive, name
    and contents, in the order of the archive; [None] when the bytes are not a
    ZIP archive. *)
Variable unzip : list byte -> option (list (string * list byte)).

(** [pd.read_csv] on the contents of a file; [None] when it does not parse. *)
Variable read_csv : list byte -> option DataFrame.

Definition extract_zip_file_as_df (databytes : list byte) : outcome DataFrame :=
  (* with tempfile.TemporaryDirectory(): *)
  match load_name (objects ["databytes"; "data"; "location"] ++ module_scope)
                  "tempfile" with
  | Ret _ =>
      match unzip databytes with
      | None => Raise BadZipFile
      | Some members =>
          (* data.extractall(location); data.filelist[0].filename *)
          match members with
          | [] => Raise IndexError
          | (_, file) :: _ =>
              match read_csv file with
              | Some frame => Ret frame
              | None => Raise ParserError
              end
          end
      end
  | Raise e => Raise e
  | OutOfFuel => OutOfFuel
  end.

(** The [while] loop of [download_workflow], entered with the last status
    read; [fuel] bounds the number of times its test is evaluated. *)
Fixpoint wait_for_file (fuel : nat) (job : pydict) (status : pyval)
  : M St (option Page) :=
  match fuel with
  | O => out_of_fuel
  | S fuel' =>
      file_status <- pure (py_get status "details.status");;
      if truthy file_status then
        if eq_str file_status "Completed" then
          result <- pure (py_get status "details.result");;
          download_url <- pure (py_get result "download_url");;
          response <- download_data download_url;;
          frame <- pure (extract_zip_file_as_df (content response));;
          record_cursor <- pure (py_get result "record_cursor");;
          ret (Some {| page_df := frame; page_cursor := record_cursor |})
        else
          liftW (sleep 30);;
          status' <- check_bulk_job job;;
          wait_for_file fuel' job status'
      else ret None
  end.

Definition download_workflow (fuel : nat) (job : pydict) : M St (option Page) :=
  status <- check_bulk_job job;;
  wait_for_file fuel job status.

End Libraries.

End Creator.

(** ** tenacity

    [retry(wait=wait_fixed(wait), stop=stop_after_attempt(max))] with the
    default retry condition: an attempt that raises is followed, after [wait]
    seconds, by another one, unless it was attempt number [max] or later; then
    [RetryError] is raised.  An attempt that returns ends the call. *)

Fixpoint retry_from {S A : Type} (sleep_for : Z -> M S unit) (remaining : nat)
  (wait : Z) (attempt : M S A) : M S A :=
  fun s =>
    match attempt s with
    | (Raise e, s') =>
        match remaining with
        | O => (Raise RetryError, s')
        | S remaining' =>
            (sleep_for wait;; retry_from sleep_for remaining' wait attempt) s'
        end
    | other => other
    end.

Definition retry {S A : Type} (sleep_for : Z -> M S unit) (max : nat) (wait : Z)
  (attempt : M S A) : M S A :=
  retry_from sleep_for (max - 1) wait attempt.

(** * plugins/hooks/zoho_inventory.py *)

Module Inventory.

(** Inventory entity modes that require ids *)
Definition ENTITY_MODE_ID_REQ : list (string * list string) :=
  [("invoice", ["update"; "get"; "draft"; "submit"; "approve"; "void"; "sent";
                "delete"]);
   ("item", ["get"; "delete"; "update"])].

Definition ZOHO_API_METHODS : list string :=
  ["compositeitems"; "creditnotes"; "contacts"; "inventoryadjustments";
   "itemdetails"; "invoices"; "items"; "purchaseorders"; "salesorders";
   "pricebooks"].

(** [ENTITY_MODE_ID_REQ[entity]] *)
Definition modes_requiring_id (entity : string) : outcome (list string) :=
  match dict_get entity ENTITY_MODE_ID_REQ with
  | Some modes => Ret modes
  | None => Raise KeyError
  end.

Definition token_sql : string := "export_zoho_oauth_token.sql".

(** The world after the exported token was read. *)
Definition queried (w : World) (rest : list (exn + pyval)) : World :=
  {| now := now w; trace := (trace w ++ [EvQuery token_sql])%list;
     http_script := http_script w; connections := connections w;
     bigquery_script := rest |}.

(** The names the module binds (its imports and definitions). *)
Definition module_scope : list (string * binding) :=
  objects ["datetime"; "timedelta"; "Optional"; "requests"; "BaseHook";
           "after_log"; "retry"; "stop_after_attempt"; "wait_fixed";
           "query_bigquery"; "get_sql_filepath"; "ENTITY_MODE_ID_REQ";
           "ZOHO_API_METHODS"; "ZohoInventoryHook"].

Record Hook := {
  endpoint : string;
  _token_manager : pyval;
  conn_id : string;
  token : pyval }.

Definition init (conn_id : string) : Hook :=
  {| endpoint := "https://inventory.zoho.eu/api/v1/";
     _token_manager := VNone;
     conn_id := conn_id;
     token := VDict [("token", VNone);
                     ("expires_at", VDatetime (1546300800 * usec))] |}.

Record St := { self : Hook; world : World }.

Definition liftW {A : Type} (c : M World A) : M St A :=
  fun s => let (o, w) := c (world s) in (o, {| self := self s; world := w |}).

Definition with_token (h : Hook) (t : pyval) : Hook :=
  {| endpoint := endpoint h; _token_manager := _token_manager h;
     conn_id := conn_id h; token := t |}.

Definition set_token (t : pyval) : M St unit :=
  modify (fun s => {| self := with_token (self s) t; world := world s |}).

Definition get_params (org_id : string) : pydict :=
  [("organization_id", VStr org_id)].

(** The state after [time.sleep(seconds)]. *)
Definition slept (seconds : Z) (s : St) : St :=
  snd (liftW (sleep seconds) s).

(** [a < b] for a datetime [a]: [b] has to be a datetime as well. *)
Definition datetime_lt (a : Z) (b : pyval) : outcome bool :=
  match b with
  | VDatetime t => Ret (a <? t)
  | _ => Raise TypeError
  end.

(** [v[k] = x] with a string key *)
Definition py_setitem (v : pyval) (k : string) (x : pyval) : outcome pyval :=
  match v with
  | VDict d => Ret (VDict (dict_set k x d))
  | _ => Raise TypeError
  end.

Section Libraries.

(** [datetime.strptime(text, "%Y-%m-%d %H:%M:%S.%f")], in microseconds;
    [None] when the text does not match the format. *)
Variable strptime : string -> option Z.

Definition py_strptime (v : pyval) : outcome Z :=
  match v with
  | VStr text => match strptime text with
                 | Some t => Ret t
                 | None => Raise ValueError
                 end
  | _ => Raise TypeError
  end.

Definition get_token : M St pyval :=
  now1 <- liftW utcnow;;
  cached <- gets (fun s => token (self s));;
  expires_at <- pure (py_get cached "expires_at");;
  valid <- pure (datetime_lt (now1 + 300 * usec) expires_at);;
  if (valid : bool) then ret cached
  else
    exported <- liftW (query_token token_sql);;
    set_token exported;;
    text <- pure (py_getitem exported "expires_at");;
    parsed <- pure (py_strptime text);;
    updated <- pure (py_setitem exported "expires_at" (VDatetime parsed));;
    set_token updated;;
    gets (fun s => token (self s)).

(** The check of [get_token]: the time in 300 seconds is before the expiry
    of the token. *)
Definition token_valid (s : St) : Prop :=
  exists expires_at : Z,
    py_get (token (self s)) "expires_at" = Ret (VDatetime expires_at)
    /\ now (world s) + 300 * usec < expires_at.

Definition get_headers : M St pydict :=
  t <- get_token;;
  bearer <- pure (py_get t "token");;
  ret [("Authorization", VStr ("Zoho-oauthtoken " ++ py_str bearer))].

Definition get_url_sig : signature :=
  [{| p_name := "method"; p_default := None |};
   {| p_name := "uuid"; p_default := Some VNone |}].

Definition get_url (method : string) (uuid : pyval) : M St string :=
  base <- gets (fun s => endpoint (self s));;
  (* if unit is not None: *)
  unit <- pure (load_name ([("self", Object); ("method", Data (VStr method));
                            ("uuid", Data uuid)] ++ module_scope) "unit");;
  if (match unit with Data VNone => false | _ => true end) then
    if String.eqb method "salesorder_lineitems" then
      ret (base ++ "salesorders/" ++ py_str uuid)
    else if String.eqb method "invoice_lineitems" then
      ret (base ++ "invoices/" ++ py_str uuid)
    else if String.eqb method "creditnote_lineitems" then
      ret (base ++ "creditnotes/" ++ py_str uuid)
    else if String.eqb method "contact_lineitems" then
      ret (base ++ "contacts/" ++ py_str uuid)
    else if String.eqb method "contact_persons" then
      ret (base ++ "contacts/" ++ py_str uuid ++ "/contact_persons")
    else if String.eqb method "inventory_adjustments_lineitems" then
      ret (base ++ "inventoryadjustments/" ++ py_str uuid)
    else if String.eqb method "bundles" then
      ret (base ++ "compositeitems/" ++ py_str uuid)
    else raise ValueError
  else if in_strs method ZOHO_API_METHODS then ret (base ++ method)
  else raise ValueError.

(** What [make_request] returns: the response itself, or its parsed body. *)
Inductive reply := Raw (r : Response) | Parsed (data : pyval).

(** The body of [make_request]: one attempt. *)
Definition make_request_attempt (org_id method : string) (page : Z) (mode : string)
  (unit : pyval) (url : option string) (params : option pydict)
  (file : option pyval) : M St reply :=
  url <- match url with
         | None =>
             (* self.get_url(method=method, unit=unit) *)
             bound <- pure (bind_call get_url_sig []
                              [("method", VStr method); ("unit", unit)]);;
             get_url (py_str (arg bound "method")) (arg bound "uuid")
         | Some u => ret u
         end;;
  let params :=
    match params with
    | Some p => p
    | None =>
        if is_none unit then
          [("organization_id", VStr org_id); ("page", VInt page);
           ("per_page", VInt 200); ("sort_column", VStr "last_modified_time");
           ("sort_order", VStr "D")]
        else get_params org_id
    end in
  let stream_state := String.eqb mode "get" && String.eqb method "image" in
  hdrs <- get_headers;;
  response <- liftW (request {| verb := upper mode; url := url;
                                params := Some params; headers := Some hdrs;
                                json := None; files := file;
                                stream := stream_state |});;
  if in_strs method ["get_pdf"; "image"] then ret (Raw response)
  else
    data <- pure (response_json response);;
    code <- pure (py_get data "code");;
    (if in_ints code [2; 57] then pure (raise_for_status response) else ret tt);;
    ret (Parsed data).

(** The request that an attempt of [make_request] sends to [url]. *)
Definition attempt_request (org_id method : string) (page : Z) (mode : string)
  (unit : pyval) (url : string) (params : option pydict) (file : option pyval)
  (hdrs : pydict) : Request :=
  {| verb := upper mode; url := url;
     params := Some match params with
                    | Some p => p
                    | None =>
                        if is_none unit then
                          [("organization_id", VStr org_id); ("page", VInt page);
                           ("per_page", VInt 200);
                           ("sort_column", VStr "last_modified_time");
                           ("sort_order", VStr "D")]
                        else get_params org_id
                    end;
     headers := Some hdrs; json := None; files := file;
     stream := String.eqb mode "get" && String.eqb method "image" |}.

Definition make_request (org_id method : string) (page : Z) (mode : string)
  (unit : pyval) (url : option string) (params : option pydict)
  (file : option pyval) : M St reply :=
  retry (fun seconds => liftW (sleep seconds)) 3 300
        (make_request_attempt org_id method page mode unit url params file).

(** The branches of [invoice] on [mode]: the parameters, the url and the HTTP
    verb of the request. *)
Definition invoice_request (base mode : string) (invoice_id updates : pyval)
  (params : pydict) : outcome (pydict * string * string) :=
  let id := py_str invoice_id in
  if String.eqb mode "update" then
    let params := dict_set "oauthscope" (VStr "ZohoInventory.invoices.UPDATE") params in
    let params := dict_set "JSONString" (VStr (py_str updates)) params in
    Ret (params, base ++ "invoices/" ++ id, "put")
  else if String.eqb mode "get" then
    let params := dict_set "oauthscope" (VStr "ZohoInventory.invoices.READ") params in
    let params := dict_set "accept" (VStr "pdf") params in
    Ret (params, base ++ "invoices/" ++ id, "get")
  else if String.eqb mode "create" then
    let params := dict_set "oauthscope" (VStr "ZohoInventory.invoices.CREATE") params in
    let params := dict_set "send" (VBool false) params in
    let params := dict_set "ignore_auto_number_generation" (VBool true) params in
    let params := dict_set "JSONString" (VStr (py_str updates)) params in
    Ret (params, base ++ "invoices", "post")
  else if String.eqb mode "draft" then
    Ret (dict_set "oauthscope" (VStr "ZohoInventory.invoices.CREATE") params,
         base ++ "invoices/" ++ id ++ "/status/draft", "post")
  else if String.eqb mode "submit" then
    Ret (params, base ++ "invoices/" ++ id ++ "/submit", "post")
  else if String.eqb mode "approve" then
    Ret (params, base ++ "invoices/" ++ id ++ "/approve", "post")
  else if String.eqb mode "void" then
    Ret (dict_set "oauthscope" (VStr "ZohoInventory.invoices.CREATE") params,
         base ++ "invoices/" ++ id ++ "/status/void", "post")
  else if String.eqb mode "sent" then
    Ret (dict_set "oauthscope" (VStr "ZohoInventory.invoices.CREATE") params,
         base ++ "invoices/" ++ id ++ "/status/sent", "post")
  else if String.eqb mode "delete" then
    Ret (dict_set "oauthscope" (VStr "ZohoInventory.invoices.DELETE") params,
         base ++ "invoices/" ++ id, "delete")
  else Raise ValueError.

Definition invoice (org_id : string) (invoice_id updates : pyval) (mode : string)
  : M St reply :=
  let params := get_params org_id in
  id_modes <- pure (modes_requiring_id "invoice");;
  if in_strs mode id_modes && negb (truthy invoice_id) then raise ValueError
  else
    base <- gets (fun s => endpoint (self s));;
    plan <- pure (invoice_request base mode invoice_id updates params);;
    let '(params, url, request_method) := plan in
    make_request org_id "invoice" 1 request_method VNone (Some url) (Some params)
                 None.

(** The branches of [item] on [mode].  In the second branch the url is set
    first, and the verb by one of three tests with no [else]. *)
Definition item_request (base mode : string) (item : pyval) (params : pydict)
  : outcome (pydict * string * option string) :=
  if String.eqb mode "create" then
    Ret (dict_set "oauthscope" (VStr "ZohoInventory.items.CREATE") params,
         base ++ "items", Some "post")
  else
    match modes_requiring_id "item" with
    | Ret id_modes =>
        if in_strs mode id_modes then
          let url := base ++ "items/" ++ py_str item in
          if String.eqb mode "get" && truthy item then
            Ret (dict_set "oauthscope" (VStr "ZohoInventory.items.READ") params,
                 url, Some "get")
          else if String.eqb mode "delete" && truthy item then
            Ret (dict_set "oauthscope" (VStr "ZohoInventory.items.DELETE") params,
                 url, Some "delete")
          else if String.eqb mode "update" && truthy item then
            Ret (dict_set "oauthscope" (VStr "ZohoInventory.items.UPDATE") params,
                 url, Some "put")
          else Ret (params, url, None)
        else Raise ValueError
    | Raise e => Raise e
    | OutOfFuel => OutOfFuel
    end.

Definition item (org_id mode : string) (item updates : pyval) : M St reply :=
  let params := get_params org_id in
  let params := dict_set "JSONString" (VStr (py_str updates)) params in
  id_modes <- pure (modes_requiring_id "item");;
  if in_strs mode id_modes && negb (truthy item) then raise ValueError
  else
    base <- gets (fun s => endpoint (self s));;
    plan <- pure (item_request base mode item params);;
    let '(params, url, request_method) := plan in
    match request_method with
    | None => raise UnboundLocalError
    | Some verb =>
        make_request org_id "item" 1 verb VNone (Some url) (Some params) None
    end.

End Libraries.

End Inventory.

(** * plugins/operators/zoho_creator.py *)

Module Operator.

(** [DataFrame.drop_duplicates()]: of equal rows the first one is kept, and
    the rows kept stay in their order.  [seen] are the rows met so far. *)
Fixpoint drop_duplicates_from (seen : list Row) (rows : DataFrame) : DataFrame :=
  match rows with
  | [] => []
  | r :: rest =>
      if in_dec Row_eq_dec r seen then drop_duplicates_from seen rest
      else r :: drop_duplicates_from (r :: seen) rest
  end.

Definition drop_duplicates (frame : DataFrame) : DataFrame :=
  drop_duplicates_from [] frame.

(** The two methods the operator calls on its hook.  They are looked up on
    whatever object [_creator_hook] holds when they are called. *)
Record HookClass := {
  hook_create_bulk_api_read_job : string -> string -> pyval -> M Creator.St pydict;
  hook_download_workflow : pydict -> M Creator.St (option Page) }.

(** A hook object: its methods and its attributes. *)
Record HookObject := { methods : HookClass; attrs : Creator.Hook }.

Record Self := {
  bucket_name : string;
  table_name : string;
  view_name : string;
  app_name : string;
  dataset : string;
  _creator_hook : option HookObject }.

Definition init (dataset app_name view_name table_name bucket_name : string)
  : Self :=
  {| bucket_name := bucket_name; table_name := table_name;
     view_name := view_name; app_name := app_name; dataset := dataset;
     _creator_hook := None |}.

Record St := { self : Self; world : World }.

Definition set_creator_hook (h : option HookObject) (s : St) : St :=
  {| self := {| bucket_name := bucket_name (self s);
                table_name := table_name (self s);
                view_name := view_name (self s);
                app_name := app_name (self s);
                dataset := dataset (self s);
                _creator_hook := h |};
     world := world s |}.

Section Libraries.

Variable unzip : list byte -> option (list (string * list byte)).
Variable read_csv : list byte -> option DataFrame.

(** The class [ZohoCreatorHook]; [fuel] bounds each run of its polling loop. *)
Definition ZohoCreatorHook (fuel : nat) : HookClass :=
  {| hook_create_bulk_api_read_job := Creator.create_bulk_api_read_job;
     hook_download_workflow := Creator.download_workflow unzip read_csv fuel |}.

(** The property [creator_hook]. *)
Definition creator_hook (fuel : nat) : M St HookObject :=
  current <- gets (fun s => _creator_hook (self s));;
  match current with
  | Some hook => ret hook
  | None =>
      (* self._creator_hook = ZohoCreatorHook() *)
      bound <- pure (bind_call Creator.init_sig [] []);;
      let hook := {| methods := ZohoCreatorHook fuel;
                     attrs := Creator.init (py_str (arg bound "conn_id")) |} in
      modify (set_creator_hook (Some hook));;
      ret hook
  end.

(** [self.creator_hook.m(...)]: the method runs on the attributes of the
    object the property gives, and what it does to them stays in that
    object. *)
Definition on_hook {A : Type} (fuel : nat) (m : HookClass -> M Creator.St A)
  : M St A :=
  hook <- creator_hook fuel;;
  fun s =>
    let (o, cs) := m (methods hook) {| Creator.self := attrs hook;
                                       Creator.world := world s |} in
    (o, {| self := self (set_creator_hook
                           (Some {| methods := methods hook;
                                    attrs := Creator.self cs |}) s);
           world := Creator.world cs |}).

(** The [while cursor:] loop of [download_bulk_data]; [fuel] bounds the number
    of times its test is evaluated. *)
Fixpoint download_pages (fuel poll_fuel : nat) (job : pydict)
  (collector : DataFrame) (download : Z) (cursor : pyval) : M St DataFrame :=
  match fuel with
  | O => out_of_fuel
  | S fuel' =>
      if truthy cursor then
        creator_hook poll_fuel;;   (* self.creator_hook.log.info(...) *)
        data <- on_hook poll_fuel (fun h => hook_download_workflow h job);;
        page <- pure (match data with
                      | Some page => Ret page
                      | None => Raise AttributeError   (* None.get("df") *)
                      end);;
        let collector := (collector ++ page_df page)%list in
        let cursor := page_cursor page in
        app <- gets (fun s => app_name (self s));;
        view <- gets (fun s => view_name (self s));;
        job <- on_hook poll_fuel
                 (fun h => hook_create_bulk_api_read_job h app view cursor);;
        download_pages fuel' poll_fuel job collector (download + 1) cursor
      else ret collector
  end.

Definition download_bulk_data (fuel poll_fuel : nat) : M St DataFrame :=
  app <- gets (fun s => app_name (self s));;
  view <- gets (fun s => view_name (self s));;
  job <- on_hook poll_fuel
           (fun h => hook_create_bulk_api_read_job h app view VNone);;
  collector <- download_pages fuel poll_fuel job [] 1 (VStr "init");;
  ret (drop_duplicates collector).

(** A run of the loop, told by the frames it appends: [appended job cursor s
    frames s'] when the loop, entered in state [s] with [job] and [cursor],
    leaves in state [s'] after it appended [frames], one per download, in
    this order. *)
Inductive appended (poll_fuel : nat)
  : pydict -> pyval -> St -> list DataFrame -> St -> Prop :=
| appended_none (job : pydict) (cursor : pyval) (s : St) :
    truthy cursor = false ->
    appended poll_fuel job cursor s [] s
| appended_page (job job' : pydict) (cursor : pyval) (s s0 s1 s2 s3 : St)
    (hook : HookObject) (page : Page) (frames : list DataFrame) :
    truthy cursor = true ->
    creator_hook poll_fuel s = (Ret hook, s0) ->
    on_hook poll_fuel (fun h => hook_download_workflow h job) s0
      = (Ret (Some page), s1) ->
    on_hook poll_fuel
      (fun h => hook_create_bulk_api_read_job h (app_name (self s1))
                  (view_name (self s1)) (page_cursor page)) s1
      = (Ret job', s2) ->
    appended poll_fuel job' (page_cursor page) s2 frames s3 ->
    appended poll_fuel job cursor s (page_df page :: frames) s3.

End Libraries.

End Operator.

(** * Fixtures: concrete hooks, jobs and worlds *)

Module Fixtures.

(** 2021-03-04 05:06:07 *)
Definition a_morning : Z := 1614834367 * usec.

Definition answer (status : Z) (body : pyval) : Response :=
  {| status_code := status; json_body := Some body; content := [] |}.

Definition quiet_world (t : Z) (script : list (Z * (exn + Response))) : World :=
  {| now := t; trace := []; http_script := script;
     connections :=
       [("zoho_creator",
         {| login := VStr "client-id"; password := VStr "client-secret";
            extra := Some (VDict [("refresh_token", VStr "refresh-1")]) |})];
     bigquery_script := [] |}.

(** A Creator hook holding a token obtained ten minutes ago. *)
Definition warm_creator_hook : Creator.Hook :=
  {| Creator.conn_id := "zoho_creator";
     Creator.endpoint := "https://creator.zoho.eu/api/v2/";
     Creator.bulk_endpoint := "https://creator.zoho.eu/api/bulk/v2";
     Creator._token := {| Creator.token := VStr "bearer-1";
                          Creator.created_at := a_morning - 600 * usec |} |}.

(** The job of a report, as [create_bulk_api_read_job] returns it. *)
Definition a_job : pydict :=
  [("url", VStr "https://creator.zoho.eu/api/bulk/v2/username_of_report_creator/shop/report/orders/read");
   ("job_id", VStr "2000000018003");
   ("cursor", VNone)].

(** The status of a finished job, as the bulk API documents it. *)
Definition completed_status : pyval :=
  VDict [("code", VInt 3000);
         ("details",
          VDict [("id", VStr "2000000018003");
                 ("status", VStr "Completed");
                 ("result",
                  VDict [("download_url", VStr "/api/bulk/v2/username_of_report_creator/shop/report/orders/read/2000000018003/result");
                         ("record_cursor", VNone)])])].

(** A ZIP archive with one stored member, [orders.csv], whose contents are
    the two lines [id,name] and [1,pen]. *)
Definition orders_zip : list byte :=
  [x50; x4b; x03; x04; x14; x00; x00; x00; x00; x00; xc3; x28; x64; x52; x60;
   x7a; x0e; x78; x0e; x00; x00; x00; x0e; x00; x00; x00; x0a; x00; x00; x00;
   x6f; x72; x64; x65; x72; x73; x2e; x63; x73; x76; x69; x64; x2c; x6e; x61;
   x6d; x65; x0a; x31; x2c; x70; x65; x6e; x0a; x50; x4b; x01; x02; x14; x03;
   x14; x00; x00; x00; x00; x00; xc3; x28; x64; x52; x60; x7a; x0e; x78; x0e;
   x00; x00; x00; x0e; x00; x00; x00; x0a; x00; x00; x00; x00; x00; x00; x00;
   x00; x00; x00; x00; x80; x01; x00; x00; x00; x00; x6f; x72; x64; x65; x72;
   x73; x2e; x63; x73; x76; x50; x4b; x05; x06; x00; x00; x00; x00; x01; x00;
   x01; x00; x38; x00; x00; x00; x36; x00; x00; x00; x00; x00].

(** A server on which the job is finished and its file ready. *)
Definition job_is_ready : Creator.St :=
  {| Creator.self := warm_creator_hook;
     Creator.world :=
       quiet_world a_morning
         [(usec, inr (answer 200 completed_status));
          (usec, inr {| status_code := 200; json_body := None;
                        content := orders_zip |})] |}.

(** A server that accepts the next export job. *)
Definition job_accepted : Creator.St :=
  {| Creator.self := warm_creator_hook;
     Creator.world :=
       quiet_world a_morning
         [(usec,
           inr (answer 200
                  (VDict [("code", VInt 3000);
                          ("details", VDict [("id", VStr "2000000018003")])])))]
  |}.

(** A Creator hook fresh from its constructor, and a server that grants a
    token in two seconds. *)
Definition cold_creator : Creator.St :=
  {| Creator.self := Creator.init "zoho_creator";
     Creator.world :=
       quiet_world a_morning
         [(2 * usec,
           inr (answer 200 (VDict [("access_token", VStr "bearer-2");
                                   ("expires_in", VInt 3600)])))] |}.

(** The one text that the parser of the fixtures knows. *)
Definition an_hour_later_text : string := "2021-03-04 06:06:07.000000".

Definition strptime_table (text : string) : option Z :=
  if String.eqb text an_hour_later_text then Some (a_morning + 3600 * usec)
  else None.

Definition exported_token : pydict :=
  [("token", VStr "bearer-9"); ("expires_at", VStr an_hour_later_text)].

(** An Inventory hook fresh from its constructor, with a token to export. *)
Definition cold_inventory : Inventory.St :=
  {| Inventory.self := Inventory.init "zoho_inventory_oauth";
     Inventory.world :=
       {| now := a_morning; trace := []; http_script := []; connections := [];
          bigquery_script := [inr (VDict exported_token)] |} |}.

(** An Inventory hook holding a token good for another hour, and a server
    that follows [script]. *)
Definition warm_inventory (script : list (Z * (exn + Response))) : Inventory.St :=
  {| Inventory.self :=
       Inventory.with_token (Inventory.init "zoho_inventory_oauth")
         (VDict [("token", VStr "bearer-9");
                 ("expires_at", VDatetime (a_morning + 3600 * usec))]);
     Inventory.world := quiet_world a_morning script |}.

Definition an_item_url : string := "https://inventory.zoho.eu/api/v1/items/460000000027009".

Definition denied : pyval :=
  VDict [("code", VInt 57);
         ("message", VStr "You are not authorized to perform this operation")].

Definition an_item : pyval :=
  VDict [("code", VInt 0); ("message", VStr "success");
         ("item", VDict [("item_id", VStr "460000000027009")])].


(** A server that denies a first request with status 401 and serves the
    second. *)
Definition denied_once : Inventory.St :=
  warm_inventory [(usec, inr (answer 401 denied)); (usec, inr (answer 200 an_item))].




End Fixtures.

(** * plugins/hooks/zoho_creator.py: views, forms, reports and records *)

Module CreatorRecords.

Import Creator.

(** [for i in v]: a list gives its elements, a dict its keys, a string its
    characters; nothing else here can be iterated. *)
Fixpoint characters (s : string) : list pyval :=
  match s with
  | EmptyString => []
  | String c rest => VStr (String c EmptyString) :: characters rest
  end.

Definition py_iter (v : pyval) : outcome (list pyval) :=
  match v with
  | VList l => Ret l
  | VDict d => Ret (map (fun kv => VStr (fst kv)) d)
  | VStr s => Ret (characters s)
  | _ => Raise TypeError
  end.

(** A frame built from a list of tuples: its columns and its rows. *)
Record Table := { columns : list string; rows : list (list pyval) }.

(** [headers = self.get_headers(); headers["scope"] = scope] *)
Definition scoped_headers (scope : string) : M St pydict :=
  hdrs <- get_headers;;
  ret (dict_set "scope" (VStr scope) hdrs).

Definition view_url_of (h : Hook) (app_name view_name : string) : string :=
  endpoint h ++ report_creator ++ "/" ++ app_name ++ "/report/" ++ view_name.

Definition get_view (app_name view_name : string) (start : Z) : M St pyval :=
  hdrs <- scoped_headers "ZohoCreator.report.READ";;
  view_url <- gets (fun s => view_url_of (self s) app_name view_name);;
  response <- liftW (request {| verb := "GET"; url := view_url;
                                params := Some [("from", VInt start);
                                                ("limit", VInt 200)];
                                headers := Some hdrs; json := None;
                                files := None; stream := false |});;
  pure (response_json response).

(** The body of the loop of [get_forms] and [get_reports]:
    [(app_name, i.get("display_name"), i.get("link_name"))]. *)
Definition details_of (app_name : string) (i : pyval) : outcome (list pyval) :=
  match py_get i "display_name" with
  | Ret display_name =>
      match py_get i "link_name" with
      | Ret link_name => Ret [VStr app_name; display_name; link_name]
      | Raise e => Raise e
      | OutOfFuel => OutOfFuel
      end
  | Raise e => Raise e
  | OutOfFuel => OutOfFuel
  end.

Fixpoint collect_details (app_name : string) (items : list pyval)
  : outcome (list (list pyval)) :=
  match items with
  | [] => Ret []
  | i :: rest =>
      match details_of app_name i with
      | Ret details =>
          match collect_details app_name rest with
          | Ret goods => Ret (details :: goods)
          | other => other
          end
      | Raise e => Raise e
      | OutOfFuel => OutOfFuel
      end
  end.

(** [get_forms] and [get_reports] differ in the last part of the url and in
    the key of the answer, both [kind]. *)
Definition get_listing (kind app_name : string) : M St Table :=
  hdrs <- scoped_headers "ZohoCreator.meta.application.READ";;
  listing_url <- gets (fun s => endpoint (self s) ++ report_creator ++ "/"
                                ++ app_name ++ "/" ++ kind);;
  response <- liftW (request {| verb := "GET"; url := listing_url;
                                params := None; headers := Some hdrs;
                                json := None; files := None; stream := false |});;
  data <- pure (response_json response);;
  listed <- pure (py_getitem data kind);;
  items <- pure (py_iter listed);;
  goods <- pure (collect_details app_name items);;
  ret {| columns := ["App"; "display_name"; "link_name"]; rows := goods |}.

Definition get_forms (app_name : string) : M St Table :=
  get_listing "forms" app_name.

Definition get_reports (app_name : string) : M St Table :=
  get_listing "reports" app_name.

Definition create_record (app_name form_name : string) (params : pyval)
  : M St pyval :=
  hdrs <- scoped_headers "ZohoCreator.form.CREATE";;
  form_url <- gets (fun s => endpoint (self s) ++ report_creator ++ "/"
                             ++ app_name ++ "/form/" ++ form_name);;
  response <- liftW (request {| verb := "POST"; url := form_url; params := None;
                                headers := Some hdrs;
                                json := Some (VDict [("data", params)]);
                                files := None; stream := false |});;
  pure (response_json response).

Definition update_record (app_name report_name : string) (record params : pyval)
  : M St pyval :=
  hdrs <- scoped_headers "ZohoCreator.report.UPDATE";;
  report_url <- gets (fun s => view_url_of (self s) app_name report_name);;
  response <- liftW (request {| verb := "PATCH"; url := report_url;
                                params := None; headers := Some hdrs;
                                json := Some (VDict
                                  [("criteria", VStr ("ID = " ++ py_str record));
                                   ("data", params)]);
                                files := None; stream := false |});;
  pure (response_json response).

Definition delete_record (app_name report_name : string) (record : pyval)
  : M St pyval :=
  hdrs <- scoped_headers "ZohoCreator.report.DELETE";;
  report_url <- gets (fun s => view_url_of (self s) app_name report_name);;
  response <- liftW (request {| verb := "DELETE"; url := report_url;
                                params := None; headers := Some hdrs;
                                json := Some (VDict
                                  [("criteria", VStr ("ID = " ++ py_str record))]);
                                files := None; stream := false |});;
  pure (response_json response).

(** The row of an entry that is a dict: a name it lacks reads [None]. *)
Definition row_of (app_name : string) (i : pyval) : list pyval :=
  [VStr app_name; Creator.job_get (match i with VDict d => d | _ => [] end)
                    "display_name";
   Creator.job_get (match i with VDict d => d | _ => [] end) "link_name"].

Definition is_dict (v : pyval) : Prop := exists d, v = VDict d.

(** A request of these methods: the verb, the url, the headers with their
    scope, and the query or the body. *)
Definition scoped_request (http_verb target scope : string) (hdrs : pydict)
  (query : option pydict) (body : option pyval) : Request :=
  {| verb := http_verb; url := target; params := query;
     headers := Some (dict_set "scope" (VStr scope) hdrs); json := body;
     files := None; stream := false |}.

End CreatorRecords.

(** * plugins/hooks/zoho_inventory.py: the other entities *)

Module InventoryEntities.

Import Inventory.

Definition lower_char (c : ascii) : ascii :=
  let n := nat_of_ascii c in
  if (Nat.leb 65 n && Nat.leb n 90)%bool then ascii_of_nat (n + 32) else c.

(** [s.lower()] on ASCII text *)
Fixpoint lower (s : string) : string :=
  match s with
  | EmptyString => EmptyString
  | String c rest => String (lower_char c) (lower rest)
  end.

(** [response.get(k)] on what [make_request] returned: a parsed body has the
    method, a response object has not. *)
Definition reply_get (r : reply) (k : string) : outcome pyval :=
  match r with
  | Parsed data => py_get data k
  | Raw _ => Raise AttributeError
  end.

(** [response.get(k, {})] *)
Definition reply_get_or_empty (r : reply) (k : string) : outcome pyval :=
  match r with
  | Parsed (VDict d) =>
      match dict_get k d with Some v => Ret v | None => Ret (VDict []) end
  | _ => Raise AttributeError
  end.

(** [response[k]] *)
Definition reply_getitem (r : reply) (k : string) : outcome pyval :=
  match r with
  | Parsed data => py_getitem data k
  | Raw _ => Raise TypeError
  end.

(** [response.status_code] *)
Definition reply_status_code (r : reply) : outcome Z :=
  match r with
  | Raw response => Ret (status_code response)
  | Parsed _ => Raise AttributeError
  end.

Section Libraries.

Variable strptime : string -> option Z.


Definition get_item (org_id : string) (item : pyval) : M St reply :=
  base <- gets (fun s => endpoint (self s));;
  let url := base ++ "items/" ++ py_str item in
  response <- make_request strptime org_id "get_item" 1 "get" VNone (Some url)
                (Some (get_params org_id)) None;;
  pure (reply_getitem response "message");;   (* f"message: {response['message']}" *)
  ret response.

Definition post_item_status (org_id : string) (item_id : pyval) (mode : string)
  : M St reply :=
  base <- gets (fun s => endpoint (self s));;
  url <- (if String.eqb (lower mode) "active" then
            ret (base ++ "items/" ++ py_str item_id ++ "/active")
          else if String.eqb (lower mode) "inactive" then
            ret (base ++ "items/" ++ py_str item_id ++ "/inactive")
          else raise ValueError);;
  let params := get_params org_id in
  let params := dict_set "oauthscope" (VStr "ZohoInventory.items.UPDATE") params in
  response <- make_request strptime org_id "post_item_status" 1 "post" VNone
                (Some url) (Some params) None;;
  pure (reply_get response "message");;
  ret response.

Definition get_item_details (org_id : string) (items : pyval) : M St reply :=
  let params := get_params org_id in
  url <- get_url "itemdetails" VNone;;
  let params := dict_set "item_ids" items params in
  response <- make_request strptime org_id "get_item_details" 1 "get" VNone
                (Some url) (Some params) None;;
  pure (reply_get response "message");;
  ret response.

Definition get_pdf (org_id : string) (record_id method : pyval) : M St reply :=
  base <- gets (fun s => endpoint (self s));;
  url <- (if eq_str method "invoice" then
            ret (base ++ "invoices/" ++ py_str record_id)
          else if eq_str method "creditnote" then
            ret (base ++ "creditnotes/" ++ py_str record_id)
          else raise ValueError);;
  let params := get_params org_id in
  let params := dict_set "oauthscope" (VStr "ZohoInventory.invoices.READ") params in
  let params := dict_set "accept" (VStr "pdf") params in
  response <- make_request strptime org_id "get_pdf" 1 "get" VNone (Some url)
                (Some params) None;;
  pure (reply_status_code response);;   (* f"... Code: {response.status_code}" *)
  ret response.

Definition purchase_order (org_id : string) (purchaseorder_id : pyval)
  : M St reply :=
  base <- gets (fun s => endpoint (self s));;
  url <- (if negb (is_none purchaseorder_id) then
            ret (base ++ "purchaseorders/" ++ py_str purchaseorder_id
                 ++ "/status/cancelled")
          else raise ValueError);;
  response <- make_request strptime org_id "purchase_order" 1 "post" VNone
                (Some url) (Some (get_params org_id)) None;;
  pure (reply_get response "message");;
  ret response.

(** The branches of [contacts] on [mode]: the url, the parameters and the
    mode handed on to [make_request]. *)
Definition contacts_request (base mode : string) (contact contact_id : pyval)
  (params : pydict) : option string * pydict * string :=
  let id := py_str contact_id in
  if String.eqb mode "put" then
    let params := dict_set "oauthscope" (VStr "ZohoInventory.contacts.UPDATE") params in
    (Some (base ++ "contacts/" ++ id),
     dict_set "JSONString" (VStr (py_str contact)) params, mode)
  else if String.eqb mode "post" then
    let params := dict_set "oauthscope" (VStr "ZohoInventory.contacts.CREATE") params in
    (Some (base ++ "contacts"),
     dict_set "JSONString" (VStr (py_str contact)) params, mode)
  else if String.eqb mode "delete" then
    (Some (base ++ "contacts/" ++ id),
     dict_set "oauthscope" (VStr "ZohoInventory.contacts.DELETE") params, mode)
  else if String.eqb mode "inactive" then
    (Some (base ++ "contacts/" ++ id ++ "/inactive"),
     dict_set "oauthscope" (VStr "ZohoInventory.contacts.CREATE") params, "post")
  else (None, params, mode).

Definition contacts (org_id mode : string) (contact contact_id : pyval)
  : M St reply :=
  let params := get_params org_id in
  let params := dict_set "oauthscope" (VStr "ZohoInventory.contacts.READ") params in
  base <- gets (fun s => endpoint (self s));;
  let '(url, params, mode) := contacts_request base mode contact contact_id params in
  response <- make_request strptime org_id "contact_details" 1 mode contact_id
                url (Some params) None;;
  (if truthy contact_id then
     pure (reply_get response "message");; ret tt
   else
     (* response.get('contact', {}).get('contact_id'), response.get('message') *)
     created <- pure (reply_get_or_empty response "contact");;
     pure (py_get created "contact_id");;
     pure (reply_get response "message");; ret tt);;
  ret response.

Definition price_list (org_id mode : string) : M St pyval :=
  let params := get_params org_id in
  let params := dict_set "oauthscope" (VStr "ZohoInventory.settings.READ") params in
  response <- make_request strptime org_id "pricebooks" 1 mode VNone None
                (Some params) None;;
  pure (reply_get response "message");;
  pure (reply_getitem response "pricebooks").

End Libraries.

End InventoryEntities.

(** * plugins/operators/zoho_creator.py: the entry point *)

Module OperatorRun.

Import Operator.

Section Libraries.

Variable unzip : list byte -> option (list (string * list byte)).
Variable read_csv : list byte -> option DataFrame.

Definition message_of (o : Self) : string :=
  "App_Name:: " ++ app_name o ++ ", View Name:: " ++ view_name o
  ++ ", Table Name:: " ++ table_name o.

Definition execute (fuel poll_fuel : nat) : M St string :=
  message <- gets (fun s => message_of (self s));;
  creator_hook unzip read_csv poll_fuel;;   (* self.creator_hook.log.info(message) *)
  download_bulk_data unzip read_csv fuel poll_fuel;;
  ret message.

End Libraries.

End OperatorRun.

(** * More fixtures *)

Module Scenarios.

(** An answer that serves an item and says nothing else. *)
Definition an_item_without_message : pyval :=
  VDict [("code", VInt 0);
         ("item", VDict [("item_id", VStr "460000000027009")])].

Definition served_without_message : Inventory.St :=
  Fixtures.warm_inventory
    [(usec, inr (Fixtures.answer 200 an_item_without_message))].

(** A view without data: the answer has status 404. *)
Definition no_data : pyval :=
  VDict [("code", VInt 3100); ("message", VStr "No Data Available")].

Definition view_is_empty : Creator.St :=
  {| Creator.self := Fixtures.warm_creator_hook;
     Creator.world :=
       Fixtures.quiet_world Fixtures.a_morning
         [(usec, inr (Fixtures.answer 404 no_data))] |}.

(** An application with two forms, the second without a display name. *)
Definition two_forms : pyval :=
  VDict [("code", VInt 3000);
         ("forms",
          VList [VDict [("display_name", VStr "Orders");
                        ("link_name", VStr "orders")];
                 VDict [("link_name", VStr "returns")]])].

Definition forms_are_listed : Creator.St :=
  {| Creator.self := Fixtures.warm_creator_hook;
     Creator.world :=
       Fixtures.quiet_world Fixtures.a_morning
         [(usec, inr (Fixtures.answer 200 two_forms))] |}.

(** A token endpoint that refuses the refresh token. *)
Definition token_is_refused : Creator.St :=
  {| Creator.self := Creator.init "zoho_creator";
     Creator.world :=
       Fixtures.quiet_world Fixtures.a_morning
         [(usec, inr (Fixtures.answer 200
                        (VDict [("error", VStr "invalid_code")])))] |}.

(** A server that answers the creation of a contact without the contact. *)
Definition contact_is_null : Inventory.St :=
  Fixtures.warm_inventory
    [(usec, inr (Fixtures.answer 201
                   (VDict [("code", VInt 0); ("message", VStr "created");
                           ("contact", VNone)])))].

(** A server that refuses the export job with status 401. *)
Definition job_is_refused : Creator.St :=
  {| Creator.self := Fixtures.warm_creator_hook;
     Creator.world :=
       Fixtures.quiet_world Fixtures.a_morning
         [(usec,
           inr (Fixtures.answer 401
                  (VDict [("code", VInt 1030);
                          ("description", VStr "Authorization Failure")])))] |}.

End Scenarios.

(** * Counting what a call did *)

Module Traces.

Definition is_http (e : Event) : bool :=
  match e with EvHttp _ => true | _ => false end.

Definition is_sleep (e : Event) : bool :=
  match e with EvSleep _ => true | _ => false end.

Definition count_http (events : list Event) : nat :=
  List.length (filter is_http events).

Definition count_sleep (events : list Event) : nat :=
  List.length (filter is_sleep events).

End Traces.

(** * Properties *)

(** ** The monad *)

Lemma bind_ret {S A B : Type} (a : A) (k : A -> M S B) (s : S) :
  bind (ret a) k s = k a s.
Proof. reflexivity. Qed.

Lemma bind_gets {S A B : Type} (f : S -> A) (k : A -> M S B) (s : S) :
  bind (gets f) k s = k (f s) s.
Proof. reflexivity. Qed.

Lemma bind_pure {S A B : Type} (o : outcome A) (k : A -> M S B) (s : S) :
  bind (pure o) k s
  = match o with
    | Ret a => k a s
    | Raise e => (Raise e, s)
    | OutOfFuel => (OutOfFuel, s)
    end.
Proof. now destruct o. Qed.

Lemma bind_run {S A B : Type} (c : M S A) (k : A -> M S B) (s s1 : S) (a : A) :
  c s = (Ret a, s1) -> bind c k s = k a s1.
Proof. intros H. unfold bind. now rewrite H. Qed.

Lemma bind_fails {S A B : Type} (c : M S A) (k : A -> M S B) (s s1 : S) (e : exn) :
  c s = (Raise e, s1) -> bind c k s = (Raise e, s1).
Proof. intros H. unfold bind. now rewrite H. Qed.

Lemma bind_raise {S A B : Type} (e : exn) (k : A -> M S B) (s : S) :
  bind (raise e) k s = (Raise e, s).
Proof. reflexivity. Qed.

(** ** Argument binding *)

Lemma bind_call_extra_positional (v : pyval) (kw : pydict) :
  bind_call [] [v] kw = Raise TypeError.
Proof. reflexivity. Qed.

Lemma bind_call_missing_argument (name : string) :
  bind_call [{| p_name := name; p_default := None |}] [] [] = Raise TypeError.
Proof. reflexivity. Qed.

Example bind_call_fitting_calls :
  bind_call Creator.get_headers_sig [] [] = Ret []
  /\ bind_call Creator.init_sig [VStr "zoho_creator"] []
     = Ret [("conn_id", VStr "zoho_creator")]
  /\ bind_call Inventory.get_url_sig [VStr "items"] []
     = Ret [("method", VStr "items"); ("uuid", VNone)]
  /\ bind_call Inventory.get_url_sig []
       [("method", VStr "bundles"); ("uuid", VStr "7")]
     = Ret [("method", VStr "bundles"); ("uuid", VStr "7")].
Proof. repeat split. Qed.

Example bind_call_unknown_keyword :
  bind_call Inventory.get_url_sig [] [("method", VStr "items"); ("unit", VNone)]
  = Raise TypeError.
Proof. reflexivity. Qed.

Example load_name_of_imports :
  load_name Creator.module_scope "zipfile" = Ret Object
  /\ load_name Creator.module_scope "tempfile" = Raise NameError
  /\ load_name Inventory.module_scope "unit" = Raise NameError.
Proof. repeat split. Qed.

Lemma in_strs_In (s : string) (l : list string) :
  in_strs s l = true <-> In s l.
Proof.
  unfold in_strs. rewrite existsb_exists. split.
  - intros [x [Hx Heq]]. apply String.eqb_eq in Heq. now subst.
  - intros H. exists s. split; [assumption | apply String.eqb_refl].
Qed.

(** ** The Creator hook: polling *)

Lemma check_bulk_job_raises (job : pydict) (s : Creator.St) :
  Creator.check_bulk_job job s = (Raise TypeError, s).
Proof. reflexivity. Qed.

Lemma download_workflow_raises unzip read_csv (fuel : nat) (job : pydict)
  (s : Creator.St) :
  Creator.download_workflow unzip read_csv fuel job s = (Raise TypeError, s).
Proof.
  unfold Creator.download_workflow, bind.
  now rewrite check_bulk_job_raises.
Qed.

(** C8. Every call of [check_bulk_job] raises [TypeError]: [get_headers] takes
    no argument and is called with one, the cursor of the job.  Nothing has
    been done by then: the state of the hook, the clock and the trace of
    requests are as they were.  So [download_workflow], which starts with
    [check_bulk_job], raises the same error and never gets to download. *)
Theorem check_bulk_job_always_type_error :
  forall unzip read_csv (fuel : nat) (job : pydict) (s : Creator.St),
    bind_call Creator.get_headers_sig [Creator.job_get job "cursor"] []
      = Raise TypeError
    /\ Creator.check_bulk_job job s = (Raise TypeError, s)
    /\ Creator.download_workflow unzip read_csv fuel job s = (Raise TypeError, s).
Proof.
  intros. split; [reflexivity | split].
  - apply check_bulk_job_raises.
  - apply download_workflow_raises.
Qed.

(** C1. On a server where the job is finished and its file is ready,
    [download_workflow] asks for no status and downloads nothing: it raises
    [TypeError] and leaves the world untouched, with both scripted answers
    still unread. *)
Theorem download_workflow_on_ready_job_raises :
  forall unzip read_csv (fuel : nat),
    Creator.download_workflow unzip read_csv fuel Fixtures.a_job
      Fixtures.job_is_ready
    = (Raise TypeError, Fixtures.job_is_ready)
    /\ trace (Creator.world Fixtures.job_is_ready) = []
    /\ List.length (http_script (Creator.world Fixtures.job_is_ready)) = 2%nat.
Proof.
  intros. split; [apply download_workflow_raises | split; reflexivity].
Qed.

(** The loop of [download_workflow], entered by hand with the status
    document of a finished job: the document keeps the status under
    [details], the loop asks for the key [details.status], finds nothing and
    ends at once, and [None] is returned. *)
Lemma wait_for_file_on_completed_status unzip read_csv (fuel : nat)
  (job : pydict) (s : Creator.St) :
  Creator.wait_for_file unzip read_csv (S fuel) job Fixtures.completed_status s
  = (Ret None, s).
Proof. reflexivity. Qed.

(** C7. [extract_zip_file_as_df] raises [NameError] on every byte string, a
    valid archive or not: its first statement names [tempfile], which the
    module does not import. *)
Theorem extract_zip_file_as_df_raises_name_error :
  forall unzip read_csv (databytes : list byte),
    Creator.extract_zip_file_as_df unzip read_csv databytes = Raise NameError.
Proof. reflexivity. Qed.

(** ** The Inventory hook: urls and required ids *)

(** C5. [get_url] raises [NameError] for every method name, with or without
    an entity id: its first test reads [unit], a name that neither the
    function (its parameters are [method] and [uuid]) nor the module binds.
    No url is returned and no [ValueError] is raised. *)
Theorem get_url_raises_name_error :
  forall (method : string) (uuid : pyval) (s : Inventory.St),
    Inventory.get_url method uuid s = (Raise NameError, s).
Proof. reflexivity. Qed.

(** A request without a url does not get as far as [get_url]: the call passes
    the keyword [unit], which [get_url] does not have.  Each of the three
    attempts raises, and [make_request] gives up without a single request. *)
Lemma make_request_without_url strptime (org_id method : string) (page : Z)
  (mode : string) (unit : pyval) (params : option pydict) (file : option pyval)
  (s : Inventory.St) :
  Inventory.make_request strptime org_id method page mode unit None params file s
  = (Raise RetryError, Inventory.slept 300 (Inventory.slept 300 s)).
Proof. reflexivity. Qed.

Lemma invoice_id_modes :
  Inventory.modes_requiring_id "invoice"
  = Ret ["update"; "get"; "draft"; "submit"; "approve"; "void"; "sent"; "delete"].
Proof. reflexivity. Qed.

Lemma item_id_modes :
  Inventory.modes_requiring_id "item" = Ret ["get"; "delete"; "update"].
Proof. reflexivity. Qed.

(** C9. An invoice operation in one of the modes update, get, draft, submit,
    approve, void, sent, delete, and an item operation in one of the modes
    get, delete, update, called with no id (None, or any other false value),
    raises [ValueError]; the state of the hook and the world, trace of
    requests included, are as before the call. *)
Theorem missing_id_raises_value_error :
  forall strptime (org_id mode : string) (id updates : pyval) (s : Inventory.St),
    truthy id = false ->
    (In mode ["update"; "get"; "draft"; "submit"; "approve"; "void"; "sent";
              "delete"] ->
     Inventory.invoice strptime org_id id updates mode s = (Raise ValueError, s))
    /\ (In mode ["get"; "delete"; "update"] ->
        Inventory.item strptime org_id mode id updates s = (Raise ValueError, s)).
Proof.
  intros strptime org_id mode id updates s Hid. split; intros Hmode.
  - unfold Inventory.invoice, bind, pure. rewrite invoice_id_modes.
    apply in_strs_In in Hmode. now rewrite Hmode, Hid.
  - unfold Inventory.item, bind, pure. rewrite item_id_modes.
    apply in_strs_In in Hmode. now rewrite Hmode, Hid.
Qed.

Lemma missing_id_raises_value_error_witness :
  let s := {| Inventory.self := Inventory.init "zoho_inventory_oauth";
              Inventory.world := Fixtures.quiet_world Fixtures.a_morning [] |} in
  Inventory.invoice (fun _ => None) "20071" VNone VNone "approve" s
    = (Raise ValueError, s)
  /\ Inventory.item (fun _ => None) "20071" "delete" VNone VNone s
    = (Raise ValueError, s).
Proof.
  intro s.
  pose proof (missing_id_raises_value_error (fun _ => None) "20071" "approve"
                VNone VNone s eq_refl) as [Hinvoice _].
  pose proof (missing_id_raises_value_error (fun _ => None) "20071" "delete"
                VNone VNone s eq_refl) as [_ Hitem].
  split.
  - apply Hinvoice. simpl. tauto.
  - apply Hitem. simpl. tauto.
Defined.

(** ** The operator: duplicates *)

Section DropDuplicates.

Import Operator.

Lemma drop_duplicates_from_In (rows : DataFrame) :
  forall (seen : list Row) (r : Row),
    In r (drop_duplicates_from seen rows) -> In r rows /\ ~ In r seen.
Proof.
  induction rows as [| r0 rest IH]; simpl; intros seen r Hin.
  - contradiction.
  - destruct (in_dec Row_eq_dec r0 seen) as [Hseen | Hnew].
    + apply IH in Hin. tauto.
    + destruct Hin as [-> | Hin].
      * tauto.
      * apply IH in Hin. simpl in Hin. tauto.
Qed.

Lemma drop_duplicates_from_keeps (rows : DataFrame) :
  forall (seen : list Row) (r : Row),
    In r rows -> ~ In r seen -> In r (drop_duplicates_from seen rows).
Proof.
  induction rows as [| r0 rest IH]; simpl; intros seen r Hin Hnot.
  - contradiction.
  - destruct (in_dec Row_eq_dec r0 seen) as [Hseen | Hnew].
    + destruct Hin as [-> | Hin]; [contradiction | now apply IH].
    + destruct (Row_eq_dec r0 r) as [-> | Hneq]; [now left | right].
      destruct Hin as [Heq | Hin]; [contradiction |].
      apply IH; [assumption |]. simpl. tauto.
Qed.






Lemma drop_duplicates_same_rows (frame : DataFrame) (r : Row) :
  In r (drop_duplicates frame) <-> In r frame.
Proof.
  split.
  - intros Hin. now apply drop_duplicates_from_In in Hin.
  - intros Hin. apply drop_duplicates_from_keeps; [assumption | intros []].
Qed.


End DropDuplicates.

(** ** The operator: the pages of a bulk download *)

Section BulkDownload.

Import Operator.

Variable unzip : list byte -> option (list (string * list byte)).
Variable read_csv : list byte -> option DataFrame.



(** Conversely, a run that ends is found by the loop as soon as the fuel
    covers its pages. *)
Lemma download_pages_returns (poll_fuel : nat) :
  forall (job : pydict) (cursor : pyval) (s s' : St) (frames : list DataFrame),
    appended unzip read_csv poll_fuel job cursor s frames s' ->
    forall (fuel : nat) (collector : DataFrame) (download : Z),
      (List.length frames < fuel)%nat ->
      download_pages unzip read_csv fuel poll_fuel job collector download cursor s
      = (Ret (collector ++ List.concat frames)%list, s').
Proof.
  intros job cursor s s' frames Hrun.
  induction Hrun as [job cursor s Hcursor
                    | job job' cursor s s0 s1 s2 s3 hook page frames Hcursor
                        Hhook Hdata Hjob Hrest IH];
    intros fuel collector download Hfuel.
  - destruct fuel as [| fuel]; [inversion Hfuel |]. simpl.
    rewrite Hcursor. unfold ret. now rewrite app_nil_r.
  - destruct fuel as [| fuel]; [inversion Hfuel |]. simpl in Hfuel |- *.
    rewrite Hcursor.
    rewrite (bind_run _ _ _ _ _ Hhook), (bind_run _ _ _ _ _ Hdata).
    rewrite bind_pure, !bind_gets, (bind_run _ _ _ _ _ Hjob).
    rewrite IH by now apply PeanoNat.lt_S_n.
    now rewrite <- app_assoc.
Qed.


End BulkDownload.


(** ** The operator: the hook it builds *)

Section OperatorHook.

Import Operator.

Variable unzip : list byte -> option (list (string * list byte)).
Variable read_csv : list byte -> option DataFrame.

Lemma creator_hook_of_new_operator (poll_fuel : nat) (s : St) :
  _creator_hook (self s) = None ->
  creator_hook unzip read_csv poll_fuel s = (Raise TypeError, s).
Proof.
  intros Hnone. unfold creator_hook. rewrite bind_gets, Hnone. reflexivity.
Qed.

Lemma on_hook_of_new_operator {A : Type} (poll_fuel : nat)
  (m : HookClass -> M Creator.St A) (s : St) :
  _creator_hook (self s) = None ->
  on_hook unzip read_csv poll_fuel m s = (Raise TypeError, s).
Proof.
  intros Hnone. unfold on_hook, bind.
  now rewrite creator_hook_of_new_operator.
Qed.

(** C2. On an operator as its constructor leaves it, [download_bulk_data]
    raises [TypeError] at its first statement: the property [creator_hook]
    builds the hook with [ZohoCreatorHook()], and the constructor of the hook
    requires [conn_id].  No job is created, no page is downloaded, the loop
    is not entered; the operator and the world are as before the call. *)
Theorem download_bulk_data_of_new_operator_raises :
  forall (fuel poll_fuel : nat)
         (dataset app_name view_name table_name bucket_name : string) (w : World),
    bind_call Creator.init_sig [] [] = Raise TypeError
    /\ download_bulk_data unzip read_csv fuel poll_fuel
         {| self := init dataset app_name view_name table_name bucket_name;
            world := w |}
       = (Raise TypeError,
          {| self := init dataset app_name view_name table_name bucket_name;
             world := w |}).
Proof.
  intros. split; [reflexivity |].
  unfold download_bulk_data. rewrite !bind_gets. unfold bind at 1.
  now rewrite on_hook_of_new_operator.
Qed.

(** With a [ZohoCreatorHook] put into [_creator_hook] by hand the run gets one
    step further and no more: the first job is created, and the first
    download raises [TypeError] in [check_bulk_job]. *)
Lemma download_bulk_data_with_creator_hook (fuel poll_fuel hook_fuel : nat)
  (s : St) (h : Creator.Hook) :
  _creator_hook (self s)
    = Some {| methods := ZohoCreatorHook unzip read_csv hook_fuel; attrs := h |} ->
  forall (frame : DataFrame) (s' : St),
    download_bulk_data unzip read_csv fuel poll_fuel s <> (Ret frame, s').
Proof.
  intros Hhook frame s' Hrun.
  unfold download_bulk_data in Hrun. rewrite !bind_gets in Hrun.
  unfold bind at 1 in Hrun. unfold on_hook at 1 in Hrun.
  unfold bind at 1, creator_hook at 1 in Hrun.
  rewrite bind_gets, Hhook in Hrun. cbn [ret methods attrs] in Hrun.
  destruct (hook_create_bulk_api_read_job _ _ _ _ _) as [[job | e |] cs];
    try discriminate Hrun.
  destruct fuel as [| fuel]; simpl in Hrun.
  - discriminate Hrun.
  - unfold bind at 1 in Hrun. unfold bind at 1, creator_hook at 1 in Hrun.
    rewrite bind_gets in Hrun. cbn in Hrun. discriminate Hrun.
Qed.

End OperatorHook.

(** ** The Creator hook: the token cache *)

Section CreatorToken.

Import Creator.

Lemma creator_utcnow (h : Hook) (w : World) :
  liftW utcnow {| self := h; world := w |}
  = (Ret (now w), {| self := h; world := w |}).
Proof. reflexivity. Qed.

Lemma creator_get_conn (h : Hook) (w : World) (conn : Connection) :
  dict_get (conn_id h) (connections w) = Some conn ->
  get_conn {| self := h; world := w |} = (Ret conn, {| self := h; world := w |}).
Proof.
  intros Hconn. unfold get_conn. rewrite bind_gets. unfold liftW, get_connection.
  cbn [self world]. now rewrite Hconn.
Qed.

Lemma creator_request (h : Hook) (w : World) (r : Request) (took : Z)
  (response : Response) (rest : list (Z * (exn + Response))) :
  http_script w = (took, inr response) :: rest ->
  liftW (request r) {| self := h; world := w |}
  = (Ret response, {| self := h; world := answered w r took rest |}).
Proof.
  intros Hscript. unfold liftW, request. cbn [self world]. now rewrite Hscript.
Qed.

Lemma creator_get_token_cached (s : St) :
  now (world s) - created_at (_token (self s)) <= 3600 * usec ->
  get_token s = (Ret (_token (self s)), s).
Proof.
  intros Hvalid. destruct s as [h w]. cbn [self world] in Hvalid.
  apply Z.leb_le in Hvalid. unfold get_token.
  rewrite (bind_run _ _ _ _ _ (creator_utcnow h w)), bind_gets.
  cbn [self world]. now rewrite Hvalid.
Qed.

Lemma creator_get_token_refreshed (s : St) (conn : Connection)
  (extra_json refresh_token body access_token : pyval) (took : Z)
  (response : Response) (rest : list (Z * (exn + Response))) :
  3600 * usec < now (world s) - created_at (_token (self s)) ->
  dict_get (conn_id (self s)) (connections (world s)) = Some conn ->
  extra conn = Some extra_json ->
  py_getitem extra_json "refresh_token" = Ret refresh_token ->
  http_script (world s) = (took, inr response) :: rest ->
  response_json response = Ret body ->
  py_getitem body "access_token" = Ret access_token ->
  let fresh := {| token := access_token; created_at := now (world s) + took |} in
  get_token s
  = (Ret fresh,
     {| self := with_token (self s) fresh;
        world := answered (world s) (token_request conn refresh_token) took rest |}).
Proof.
  intros Hold Hconn Hextra Hrefresh Hscript Hbody Haccess fresh.
  destruct s as [h w]. cbn [self world] in *.
  apply Z.ltb_lt in Hold. rewrite Z.ltb_antisym in Hold.
  apply negb_true_iff in Hold. unfold get_token.
  rewrite (bind_run _ _ _ _ _ (creator_utcnow h w)), bind_gets.
  cbn [self world]. rewrite Hold.
  rewrite (bind_run _ _ _ _ _ (creator_get_conn h w conn Hconn)).
  rewrite bind_pure, Hextra, bind_pure, Hrefresh.
  rewrite (bind_run _ _ _ _ _
             (creator_request h w _ took response rest Hscript)).
  rewrite bind_pure, Hbody, bind_pure, Haccess.
  reflexivity.
Qed.

Lemma creator_get_conn_inv (h : Hook) (w : World) (conn : Connection) (s1 : St) :
  get_conn {| self := h; world := w |} = (Ret conn, s1) ->
  dict_get (conn_id h) (connections w) = Some conn
  /\ s1 = {| self := h; world := w |}.
Proof.
  unfold get_conn. rewrite bind_gets. unfold liftW, get_connection.
  cbn [self world]. destruct (dict_get (conn_id h) (connections w)) as [c |];
    intros Hrun; inversion Hrun; subst. now split.
Qed.

Lemma creator_request_inv (h : Hook) (w : World) (r : Request)
  (response : Response) (s1 : St) :
  liftW (request r) {| self := h; world := w |} = (Ret response, s1) ->
  exists (took : Z) (rest : list (Z * (exn + Response))),
    http_script w = (took, inr response) :: rest
    /\ s1 = {| self := h; world := answered w r took rest |}.
Proof.
  unfold liftW, request. cbn [self world].
  destruct (http_script w) as [| [took [e | resp]] rest]; intros Hrun;
    inversion Hrun; subst.
  now exists took, rest.
Qed.

(** With a token that is too old, [get_token] returns only after it has
    sent the request for a new one, and what it returns is the token of the
    answer, stamped with the time of its arrival. *)
Lemma creator_get_token_stale (s s' : St) (t : Token) :
  3600 * usec < now (world s) - created_at (_token (self s)) ->
  get_token s = (Ret t, s') ->
  exists (conn : Connection) (refresh_token : pyval) (took : Z)
         (response : Response) (rest : list (Z * (exn + Response)))
         (body : pyval),
    s' = {| self := with_token (self s) t;
            world := answered (world s) (token_request conn refresh_token)
                       took rest |}
    /\ http_script (world s) = (took, inr response) :: rest
    /\ response_json response = Ret body
    /\ py_getitem body "access_token" = Ret (token t)
    /\ created_at t = now (world s) + took.
Proof.
  intros Hold Hrun. destruct s as [h w]. cbn [self world] in *.
  apply Z.ltb_lt in Hold. rewrite Z.ltb_antisym in Hold.
  apply negb_true_iff in Hold. unfold get_token in Hrun.
  rewrite (bind_run _ _ _ _ _ (creator_utcnow h w)), bind_gets in Hrun.
  cbn [self world] in Hrun. rewrite Hold in Hrun.
  unfold bind at 1 in Hrun.
  destruct (get_conn _) as [[conn | e |] s1] eqn:Hconn; try discriminate Hrun.
  apply creator_get_conn_inv in Hconn. destruct Hconn as [_ ->].
  rewrite bind_pure in Hrun.
  destruct (extra conn) as [extra_json |]; [| discriminate Hrun].
  rewrite bind_pure in Hrun.
  destruct (py_getitem extra_json "refresh_token") as [refresh_token | e |];
    try discriminate Hrun.
  unfold bind at 1 in Hrun.
  destruct (liftW (request _) _) as [[response | e |] s1] eqn:Hsent;
    try discriminate Hrun.
  apply creator_request_inv in Hsent.
  destruct Hsent as [took [rest [Hscript ->]]].
  rewrite bind_pure in Hrun.
  destruct (response_json response) as [body | e |] eqn:Hbody;
    try discriminate Hrun.
  rewrite bind_pure in Hrun.
  destruct (py_getitem body "access_token") as [access_token | e |] eqn:Haccess;
    try discriminate Hrun.
  inversion Hrun; subst; clear Hrun.
  exists conn, refresh_token, took, response, rest, body. cbn [token created_at].
  repeat split; assumption.
Qed.

End CreatorToken.

(** ** The Inventory hook: the token cache *)

Section InventoryToken.

Import Inventory.

Variable strptime : string -> option Z.

Lemma inventory_utcnow (h : Hook) (w : World) :
  liftW utcnow {| self := h; world := w |}
  = (Ret (now w), {| self := h; world := w |}).
Proof. reflexivity. Qed.

Lemma inventory_query (h : Hook) (w : World) (exported : pyval)
  (rest : list (exn + pyval)) :
  bigquery_script w = inr exported :: rest ->
  liftW (query_token token_sql) {| self := h; world := w |}
  = (Ret exported, {| self := h; world := queried w rest |}).
Proof.
  intros Hscript. unfold liftW, query_token. cbn [self world].
  now rewrite Hscript.
Qed.

Lemma inventory_query_inv (h : Hook) (w : World) (exported : pyval) (s1 : St) :
  liftW (query_token token_sql) {| self := h; world := w |} = (Ret exported, s1) ->
  exists rest : list (exn + pyval),
    bigquery_script w = inr exported :: rest
    /\ s1 = {| self := h; world := queried w rest |}.
Proof.
  unfold liftW, query_token. cbn [self world].
  destruct (bigquery_script w) as [| [e | v] rest]; intros Hrun;
    inversion Hrun; subst.
  now exists rest.
Qed.

Lemma inventory_get_token_cached (s : St) (expires_at : Z) :
  py_get (token (self s)) "expires_at" = Ret (VDatetime expires_at) ->
  now (world s) + 300 * usec < expires_at ->
  get_token strptime s = (Ret (token (self s)), s).
Proof.
  intros Hexpires Hvalid. destruct s as [h w]. cbn [self world] in *.
  apply Z.ltb_lt in Hvalid. unfold get_token.
  rewrite (bind_run _ _ _ _ _ (inventory_utcnow h w)), bind_gets.
  cbn [self world]. rewrite bind_pure, Hexpires, bind_pure.
  cbn [datetime_lt]. now rewrite Hvalid.
Qed.

Lemma inventory_get_token_refreshed (s : St) (expires_at parsed : Z)
  (exported : pydict) (text : string) (rest : list (exn + pyval)) :
  py_get (token (self s)) "expires_at" = Ret (VDatetime expires_at) ->
  expires_at <= now (world s) + 300 * usec ->
  bigquery_script (world s) = inr (VDict exported) :: rest ->
  dict_get "expires_at" exported = Some (VStr text) ->
  strptime text = Some parsed ->
  let fresh := VDict (dict_set "expires_at" (VDatetime parsed) exported) in
  get_token strptime s
  = (Ret fresh,
     {| self := with_token (self s) fresh; world := queried (world s) rest |}).
Proof.
  intros Hexpires Hold Hscript Htext Hparsed fresh.
  destruct s as [h w]. cbn [self world] in *.
  apply Z.leb_le in Hold. rewrite Z.leb_antisym in Hold.
  apply negb_true_iff in Hold. unfold get_token.
  rewrite (bind_run _ _ _ _ _ (inventory_utcnow h w)), bind_gets.
  cbn [self world]. rewrite bind_pure, Hexpires, bind_pure.
  cbn [datetime_lt]. rewrite Hold.
  rewrite (bind_run _ _ _ _ _ (inventory_query h w _ rest Hscript)).
  unfold bind at 1, set_token at 1, modify at 1. cbn [self world].
  rewrite bind_pure. cbn [py_getitem]. rewrite Htext.
  rewrite bind_pure. cbn [py_strptime]. rewrite Hparsed.
  reflexivity.
Qed.

(** With a token that fails the check, [get_token] returns only after it has
    read the exported token, and what it returns is that token with its expiry
    parsed, which is also what the cache holds from then on. *)
Lemma inventory_get_token_stale (s s' : St) (t : pyval) :
  ~ token_valid s ->
  get_token strptime s = (Ret t, s') ->
  exists (exported : pydict) (text : string) (parsed : Z)
         (rest : list (exn + pyval)),
    bigquery_script (world s) = inr (VDict exported) :: rest
    /\ dict_get "expires_at" exported = Some (VStr text)
    /\ strptime text = Some parsed
    /\ t = VDict (dict_set "expires_at" (VDatetime parsed) exported)
    /\ s' = {| self := with_token (self s) t; world := queried (world s) rest |}.
Proof.
  intros Hstale Hrun. destruct s as [h w]. unfold token_valid in Hstale.
  cbn [self world] in *. unfold get_token in Hrun.
  rewrite (bind_run _ _ _ _ _ (inventory_utcnow h w)), bind_gets in Hrun.
  cbn [self world] in Hrun. rewrite bind_pure in Hrun.
  destruct (py_get (token h) "expires_at") as [expires | e |] eqn:Hexpires;
    try discriminate Hrun.
  rewrite bind_pure in Hrun.
  destruct expires as [| | | | | | expires_at]; try discriminate Hrun.
  cbn [datetime_lt] in Hrun.
  destruct (now w + 300 * usec <? expires_at) eqn:Hcheck.
  - exfalso. apply Hstale. exists expires_at. split; [reflexivity |].
    now apply Z.ltb_lt.
  - unfold bind at 1 in Hrun.
    destruct (liftW (query_token token_sql) _) as [[exported | e |] s1] eqn:Hq;
      try discriminate Hrun.
    apply inventory_query_inv in Hq. destruct Hq as [rest [Hscript ->]].
    unfold bind at 1, set_token at 1, modify at 1 in Hrun.
    cbn [self world] in Hrun. rewrite bind_pure in Hrun.
    destruct exported as [| | | | | d |]; try discriminate Hrun.
    cbn [py_getitem] in Hrun.
    destruct (dict_get "expires_at" d) as [raw |] eqn:Hraw;
      [| discriminate Hrun].
    rewrite bind_pure in Hrun.
    destruct raw as [| | | text | | |]; try discriminate Hrun.
    cbn [py_strptime] in Hrun.
    destruct (strptime text) as [parsed |] eqn:Hparsed; [| discriminate Hrun].
    inversion Hrun; subst; clear Hrun.
    exists d, text, parsed, rest. repeat split; assumption.
Qed.

End InventoryToken.

(** C4. Each hook returns its cached token, and does nothing else, when the
    token passes the hook's check: for Creator at most 3600 seconds since the
    token was made, for Inventory the time in 300 seconds still before the
    expiry.  When the token fails the check, a call that returns has first
    asked for a new token (the request, or the query, is the new last entry
    of the trace), has put the token it got into the cache, stamped with the
    time of the answer (Creator) or with the parsed expiry that came with it
    (Inventory), and returns what the cache then holds; and such a call
    does return whenever the connection and the answer are in order. *)
Theorem get_token_cache_and_refresh :
  forall strptime : string -> option Z,
    (forall s : Creator.St,
        Creator.token_valid s ->
        Creator.get_token s = (Ret (Creator._token (Creator.self s)), s))
    /\ (forall (s s' : Creator.St) (t : Creator.Token),
          ~ Creator.token_valid s ->
          Creator.get_token s = (Ret t, s') ->
          exists conn refresh_token took response rest body,
            s' = {| Creator.self := Creator.with_token (Creator.self s) t;
                    Creator.world :=
                      answered (Creator.world s)
                        (Creator.token_request conn refresh_token) took rest |}
            /\ http_script (Creator.world s) = (took, inr response) :: rest
            /\ response_json response = Ret body
            /\ py_getitem body "access_token" = Ret (Creator.token t)
            /\ Creator.created_at t = now (Creator.world s) + took)
    /\ (forall (s : Creator.St) conn extra_json refresh_token body access_token
               took response rest,
          ~ Creator.token_valid s ->
          dict_get (Creator.conn_id (Creator.self s))
                   (connections (Creator.world s)) = Some conn ->
          extra conn = Some extra_json ->
          py_getitem extra_json "refresh_token" = Ret refresh_token ->
          http_script (Creator.world s) = (took, inr response) :: rest ->
          response_json response = Ret body ->
          py_getitem body "access_token" = Ret access_token ->
          exists s' : Creator.St,
            Creator.get_token s
            = (Ret {| Creator.token := access_token;
                      Creator.created_at := now (Creator.world s) + took |}, s'))
    /\ (forall s : Inventory.St,
          Inventory.token_valid s ->
          Inventory.get_token strptime s
          = (Ret (Inventory.token (Inventory.self s)), s))
    /\ (forall (s s' : Inventory.St) (t : pyval),
          ~ Inventory.token_valid s ->
          Inventory.get_token strptime s = (Ret t, s') ->
          exists exported text parsed rest,
            bigquery_script (Inventory.world s) = inr (VDict exported) :: rest
            /\ dict_get "expires_at" exported = Some (VStr text)
            /\ strptime text = Some parsed
            /\ t = VDict (dict_set "expires_at" (VDatetime parsed) exported)
            /\ s' = {| Inventory.self :=
                         Inventory.with_token (Inventory.self s) t;
                       Inventory.world :=
                         Inventory.queried (Inventory.world s) rest |})
    /\ (forall (s : Inventory.St) expires_at exported text parsed rest,
          py_get (Inventory.token (Inventory.self s)) "expires_at"
            = Ret (VDatetime expires_at) ->
          ~ Inventory.token_valid s ->
          bigquery_script (Inventory.world s) = inr (VDict exported) :: rest ->
          dict_get "expires_at" exported = Some (VStr text) ->
          strptime text = Some parsed ->
          exists s' : Inventory.St,
            Inventory.get_token strptime s
            = (Ret (VDict (dict_set "expires_at" (VDatetime parsed) exported)),
               s')).
Proof.
  intros strptime. repeat apply conj.
  - intros s Hvalid. now apply creator_get_token_cached.
  - intros s s' t Hstale Hrun. apply creator_get_token_stale; [| assumption].
    unfold Creator.token_valid in Hstale. lia.
  - intros s conn extra_json refresh_token body access_token took response rest
      Hstale Hconn Hextra Hrefresh Hscript Hbody Haccess.
    eexists. eapply creator_get_token_refreshed; try eassumption.
    unfold Creator.token_valid in Hstale. lia.
  - intros s [expires_at [Hexpires Hvalid]].
    now apply (inventory_get_token_cached strptime s expires_at).
  - intros s s' t Hstale Hrun.
    now apply (inventory_get_token_stale strptime s s' t).
  - intros s expires_at exported text parsed rest Hexpires Hstale Hscript Htext
      Hparsed.
    eexists. eapply inventory_get_token_refreshed; try eassumption.
    destruct (Z_lt_le_dec (now (Inventory.world s) + 300 * usec) expires_at)
      as [Hlt | Hle]; [| assumption].
    exfalso. apply Hstale. now exists expires_at.
Qed.

Lemma get_token_cache_and_refresh_witness :
  Creator.get_token Fixtures.job_is_ready
    = (Ret {| Creator.token := VStr "bearer-1";
              Creator.created_at := Fixtures.a_morning - 600 * usec |},
       Fixtures.job_is_ready)
  /\ (exists s' : Creator.St,
        Creator.get_token Fixtures.cold_creator
        = (Ret {| Creator.token := VStr "bearer-2";
                  Creator.created_at := Fixtures.a_morning + 2 * usec |}, s'))
  /\ Inventory.get_token Fixtures.strptime_table (Fixtures.warm_inventory [])
      = (Ret (VDict [("token", VStr "bearer-9");
                     ("expires_at",
                      VDatetime (Fixtures.a_morning + 3600 * usec))]),
         Fixtures.warm_inventory [])
  /\ (exists s' : Inventory.St,
        Inventory.get_token Fixtures.strptime_table Fixtures.cold_inventory
        = (Ret (VDict [("token", VStr "bearer-9");
                       ("expires_at",
                        VDatetime (Fixtures.a_morning + 3600 * usec))]), s')).
Proof.
  destruct (get_token_cache_and_refresh Fixtures.strptime_table)
    as (Hc_cached & _ & Hc_fresh & Hi_cached & _ & Hi_fresh).
  repeat apply conj.
  - apply (Hc_cached Fixtures.job_is_ready).
    unfold Creator.token_valid. vm_compute. discriminate.
  - eapply (Hc_fresh Fixtures.cold_creator); try reflexivity.
    unfold Creator.token_valid. vm_compute. intros H. now apply H.
  - apply (Hi_cached (Fixtures.warm_inventory [])).
    exists (Fixtures.a_morning + 3600 * usec). split; [reflexivity |].
    vm_compute. reflexivity.
  - eapply (Hi_fresh Fixtures.cold_inventory (1546300800 * usec)
              Fixtures.exported_token); try reflexivity.
    intros [expires_at [Hexpires Hvalid]].
    inversion Hexpires; subst. vm_compute in Hvalid. discriminate Hvalid.
Defined.

(** ** The Creator hook: export jobs *)

Section ExportJob.

Import Creator.

Lemma query_of_cursor (cursor : pyval) :
  query_of cursor
  = if truthy cursor
    then [("max_records", VInt 200000); ("record_cursor", cursor)]
    else [("max_records", VInt 200000)].
Proof. unfold query_of. now destruct (truthy cursor). Qed.

(** C6. A call of [create_bulk_api_read_job] that gets its headers and an
    answer with a good status and a [details] object sends one request, a
    POST to the bulk url of the report whose body is [{"query": query}];
    [query] has [max_records] 200000, and has [record_cursor], with the
    cursor as its value, exactly when the cursor given is not empty.  The
    call returns the dict of the bulk url, the id found in the details of
    the answer, and the cursor. *)
Theorem create_bulk_api_read_job_spec :
  forall (app_name view_name : string) (cursor : pyval) (s s1 : St)
         (hdrs : pydict) (took : Z) (response : Response)
         (rest : list (Z * (exn + Response))) (body details job_id : pyval),
    get_headers s = (Ret hdrs, s1) ->
    http_script (world s1) = (took, inr response) :: rest ->
    raise_for_status response = Ret tt ->
    response_json response = Ret body ->
    py_get body "details" = Ret details ->
    py_get details "id" = Ret job_id ->
    let bulk_url := bulk_url_of (self s) app_name view_name in
    let query := query_of cursor in
    create_bulk_api_read_job app_name view_name cursor s
    = (Ret [("url", VStr bulk_url); ("job_id", job_id); ("cursor", cursor)],
       {| self := self s1;
          world := answered (world s1) (job_request bulk_url hdrs query) took
                     rest |})
    /\ dict_get "max_records" query = Some (VInt 200000)
    /\ dict_get "record_cursor" query
       = (if truthy cursor then Some cursor else None)
    /\ List.length query = (if truthy cursor then 2%nat else 1%nat).
Proof.
  intros app_name view_name cursor s s1 hdrs took response rest body details
    job_id Hheaders Hscript Hstatus Hbody Hdetails Hid bulk_url query.
  split.
  - unfold create_bulk_api_read_job. rewrite bind_gets.
    rewrite (bind_run _ _ _ _ _ Hheaders). destruct s1 as [h1 w1].
    cbn [self world] in *.
    rewrite (bind_run _ _ _ _ _
               (creator_request h1 w1 _ took response rest Hscript)).
    rewrite bind_pure, Hstatus, bind_pure, Hbody, bind_pure, Hdetails,
      bind_pure, Hid.
    reflexivity.
  - subst query. rewrite query_of_cursor. now destruct (truthy cursor).
Qed.

Lemma create_bulk_api_read_job_spec_witness :
  exists s' : St,
    create_bulk_api_read_job "shop" "orders" (VStr "1:200000")
      Fixtures.job_accepted
    = (Ret [("url", VStr "https://creator.zoho.eu/api/bulk/v2/username_of_report_creator/shop/report/orders/read");
            ("job_id", VStr "2000000018003");
            ("cursor", VStr "1:200000")], s')
    /\ trace (world s')
       = [EvHttp
            (job_request
               "https://creator.zoho.eu/api/bulk/v2/username_of_report_creator/shop/report/orders/read"
               [("Authorization", VStr "Zoho-oauthtoken bearer-1")]
               [("max_records", VInt 200000);
                ("record_cursor", VStr "1:200000")])].
Proof.
  eexists. split.
  - refine (proj1 (create_bulk_api_read_job_spec "shop" "orders"
                     (VStr "1:200000") Fixtures.job_accepted
                     Fixtures.job_accepted _ usec _ [] _ _ _
                     eq_refl eq_refl eq_refl eq_refl eq_refl eq_refl)).
  - reflexivity.
Defined.

End ExportJob.

(** ** The Inventory hook: requests and retries *)

Section MakeRequest.

Import Inventory.

Variable strptime : string -> option Z.

Lemma inventory_request (h : Hook) (w : World) (r : Request) (took : Z)
  (response : Response) (rest : list (Z * (exn + Response))) :
  http_script w = (took, inr response) :: rest ->
  liftW (request r) {| self := h; world := w |}
  = (Ret response, {| self := h; world := answered w r took rest |}).
Proof.
  intros Hscript. unfold liftW, request. cbn [self world]. now rewrite Hscript.
Qed.

Variables (org_id method : string) (page : Z) (mode : string) (unit : pyval)
          (u : string) (params : option pydict) (file : option pyval).

Let attempt : M St reply :=
  make_request_attempt strptime org_id method page mode unit (Some u) params file.

Let call : M St reply :=
  make_request strptime org_id method page mode unit (Some u) params file.

(** An attempt up to the answer of the server. *)
Lemma attempt_answered (s s1 : St) (hdrs : pydict) (took : Z)
  (response : Response) (rest : list (Z * (exn + Response))) :
  get_headers strptime s = (Ret hdrs, s1) ->
  http_script (world s1) = (took, inr response) :: rest ->
  attempt s
  = (if in_strs method ["get_pdf"; "image"] then ret (Raw response)
     else
       data <- pure (response_json response);;
       code <- pure (py_get data "code");;
       (if in_ints code [2; 57] then pure (raise_for_status response)
        else ret tt);;
       ret (Parsed data))
      {| self := self s1;
         world := answered (world s1)
                    (attempt_request org_id method page mode unit u params file
                       hdrs) took rest |}.
Proof.
  intros Hheaders Hscript. unfold attempt, make_request_attempt.
  rewrite bind_ret, (bind_run _ _ _ _ _ Hheaders). destruct s1 as [h1 w1].
  cbn [self world] in *.
  now rewrite (bind_run _ _ _ _ _
                 (inventory_request h1 w1 _ took response rest Hscript)).
Qed.

Lemma raise_for_status_error (response : Response) :
  400 <= status_code response < 600 -> raise_for_status response = Raise HTTPError.
Proof.
  intros [Hlow Hhigh]. unfold raise_for_status.
  apply Z.leb_le in Hlow. apply Z.ltb_lt in Hhigh. now rewrite Hlow, Hhigh.
Qed.

Lemma raise_for_status_fine (response : Response) :
  ~ 400 <= status_code response < 600 -> raise_for_status response = Ret tt.
Proof.
  intros Hfine. unfold raise_for_status.
  destruct (400 <=? status_code response) eqn:Hlow;
    destruct (status_code response <? 600) eqn:Hhigh; try reflexivity.
  exfalso. apply Hfine. apply Z.leb_le in Hlow. apply Z.ltb_lt in Hhigh. lia.
Qed.

Lemma call_unfolded (s : St) :
  call s
  = match attempt s with
    | (Raise _, s1) =>
        match attempt (slept 300 s1) with
        | (Raise _, s2) =>
            match attempt (slept 300 s2) with
            | (Raise _, s3) => (Raise RetryError, s3)
            | third => third
            end
        | second => second
        end
    | first => first
    end.
Proof.
  unfold call, make_request, retry. cbn [Nat.sub retry_from]. fold attempt.
  destruct (attempt s) as [[v | e |] s1]; reflexivity.
Qed.

End MakeRequest.




(** * Further properties *)

(** ** Outcomes of the steps that have no loop *)

Lemma py_get_fuel (v : pyval) (k : string) : py_get v k <> OutOfFuel.
Proof. destruct v; simpl; try discriminate. now destruct (dict_get k d). Qed.

Lemma py_getitem_fuel (v : pyval) (k : string) : py_getitem v k <> OutOfFuel.
Proof. destruct v; simpl; try discriminate. now destruct (dict_get k d). Qed.

Lemma response_json_fuel (r : Response) : response_json r <> OutOfFuel.
Proof. unfold response_json. now destruct (json_body r). Qed.

Lemma raise_for_status_fuel (r : Response) : raise_for_status r <> OutOfFuel.
Proof.
  unfold raise_for_status.
  now destruct ((400 <=? status_code r) && (status_code r <? 600))%bool.
Qed.

Lemma datetime_lt_fuel (a : Z) (b : pyval) : Inventory.datetime_lt a b <> OutOfFuel.
Proof. now destruct b. Qed.

Lemma py_setitem_fuel (v : pyval) (k : string) (x : pyval) :
  Inventory.py_setitem v k x <> OutOfFuel.
Proof. now destruct v. Qed.

Lemma py_strptime_fuel strptime (v : pyval) :
  Inventory.py_strptime strptime v <> OutOfFuel.
Proof. destruct v; simpl; try discriminate. now destruct (strptime s). Qed.

(** Closes a goal in which [E] says that such a step ran out of fuel. *)
Ltac no_fuel E :=
  exfalso;
  first [ apply (py_get_fuel _ _ E) | apply (py_getitem_fuel _ _ E)
        | apply (response_json_fuel _ E) | apply (raise_for_status_fuel _ E)
        | apply (datetime_lt_fuel _ _ E) | apply (py_setitem_fuel _ _ _ E)
        | apply (py_strptime_fuel _ _ E) ].

(** Splits the outcome of the effect-free step at the head of [H]. *)
Ltac pure_step H v E :=
  rewrite bind_pure in H;
  match type of H with
  | context [match ?o with Ret _ => _ | Raise _ => _ | OutOfFuel => _ end] =>
      destruct o as [v | ?e |] eqn:E; [ | | no_fuel E ]
  end.

(** ** The Inventory hook: what a call leaves on the trace *)

Section InventoryEffects.

Import Inventory.

Variable strptime : string -> option Z.

(** [s'] is [s] with another token, and [events] more on the trace. *)
Definition grows (s s' : St) (events : list Event) : Prop :=
  endpoint (self s') = endpoint (self s)
  /\ trace (world s') = (trace (world s) ++ events)%list.

Lemma grows_refl (s : St) : grows s s [].
Proof. split; [reflexivity | now rewrite app_nil_r]. Qed.

Lemma grows_trans (s s1 s2 : St) (a b : list Event) :
  grows s s1 a -> grows s1 s2 b -> grows s s2 (a ++ b)%list.
Proof.
  intros [He1 Ht1] [He2 Ht2]. split; [congruence |].
  now rewrite Ht2, Ht1, app_assoc.
Qed.

Lemma grows_slept (seconds : Z) (s : St) :
  grows s (slept seconds s) [EvSleep seconds].
Proof. now split. Qed.

Lemma get_token_grows (s s' : St) (o : outcome pyval) :
  get_token strptime s = (o, s') ->
  o <> OutOfFuel
  /\ (grows s s' [] \/ grows s s' [EvQuery token_sql]).
Proof.
  destruct s as [h w]. unfold get_token.
  rewrite (bind_run _ _ _ _ _ (inventory_utcnow h w)), bind_gets.
  cbn [self world]. intros Hrun.
  pure_step Hrun expires Hexpires;
    [| inversion Hrun; subst; split; [discriminate | left; apply grows_refl]].
  pure_step Hrun valid Hvalid;
    [| inversion Hrun; subst; split; [discriminate | left; apply grows_refl]].
  destruct valid.
  - inversion Hrun; subst. split; [discriminate | left; apply grows_refl].
  - unfold bind at 1 in Hrun.
    destruct (liftW (query_token token_sql) _) as [[exported | e |] s1] eqn:Hq.
    + apply inventory_query_inv in Hq. destruct Hq as [rest [_ ->]].
      unfold bind at 1, set_token at 1, modify at 1 in Hrun.
      cbn [self world] in Hrun.
      assert (Hq : forall t, grows {| self := h; world := w |}
                     {| self := with_token h t; world := queried w rest |}
                     [EvQuery token_sql]) by (intros t; now split).
      pure_step Hrun text Htext;
        [| inversion Hrun; subst; split; [discriminate | right; apply Hq]].
      pure_step Hrun parsed Hparsed;
        [| inversion Hrun; subst; split; [discriminate | right; apply Hq]].
      pure_step Hrun updated Hupdated;
        [| inversion Hrun; subst; split; [discriminate | right; apply Hq]].
      inversion Hrun; subst. split; [discriminate | right; apply Hq].
    + unfold liftW, query_token in Hq. cbn [self world] in Hq.
      inversion Hrun; subst.
      split; [discriminate | right].
      destruct (bigquery_script w) as [| [e' | v] rest]; inversion Hq; subst;
        now split.
    + exfalso. unfold liftW, query_token in Hq. cbn [self world] in Hq.
      destruct (bigquery_script w) as [| [e' | v] rest]; discriminate Hq.
Qed.

Lemma get_headers_grows (s s' : St) (o : outcome pydict) :
  get_headers strptime s = (o, s') ->
  o <> OutOfFuel
  /\ (grows s s' [] \/ grows s s' [EvQuery token_sql]).
Proof.
  unfold get_headers. unfold bind at 1.
  destruct (get_token strptime s) as [[t | e |] s1] eqn:Htoken; intros Hrun;
    apply get_token_grows in Htoken; destruct Htoken as [Hfuel Hgrows].
  - pure_step Hrun bearer Hbearer; inversion Hrun; subst;
      (split; [discriminate | assumption]).
  - inversion Hrun; subst. split; [discriminate | assumption].
  - now contradiction Hfuel.
Qed.

Lemma request_grows (r : Request) (s s' : St) (o : outcome Response) :
  liftW (request r) s = (o, s') ->
  o <> OutOfFuel /\ grows s s' [EvHttp r].
Proof.
  destruct s as [h w]. unfold liftW, request. cbn [self world].
  destruct (http_script w) as [| [took [e | response]] rest]; intros Hrun;
    inversion Hrun; subst; (split; [discriminate | now split]).
Qed.

Lemma count_http_app (a b : list Event) :
  Traces.count_http (a ++ b) = (Traces.count_http a + Traces.count_http b)%nat.
Proof. unfold Traces.count_http. now rewrite filter_app, length_app. Qed.

Lemma count_sleep_app (a b : list Event) :
  Traces.count_sleep (a ++ b) = (Traces.count_sleep a + Traces.count_sleep b)%nat.
Proof. unfold Traces.count_sleep. now rewrite filter_app, length_app. Qed.

Variables (org_id method : string) (page : Z) (mode : string) (unit : pyval)
          (url : option string) (params : option pydict) (file : option pyval).

(** The events of a call of [make_request]: the query for a token, the sleep
    between two attempts, and the request of an attempt. *)
Definition allowed (e : Event) : Prop :=
  e = EvQuery token_sql
  \/ e = EvSleep 300
  \/ exists (u : string) (hdrs : pydict),
       url = Some u
       /\ e = EvHttp (attempt_request org_id method page mode unit u params file
                        hdrs).

(** What a call, or one attempt of it, can come to: never out of fuel, a
    parsed body only if it is a dict and the method is not [get_pdf] or
    [image], a response only for these two, and on the trace at most
    [requests] requests and [sleeps] sleeps, all of them [allowed]. *)
Definition comes_to (requests sleeps : nat) (s : St) (o : outcome reply)
  (s' : St) : Prop :=
  o <> OutOfFuel
  /\ (forall data, o = Ret (Parsed data) ->
        (exists d, data = VDict d)
        /\ in_strs method ["get_pdf"; "image"] = false)
  /\ (forall response, o = Ret (Raw response) ->
        in_strs method ["get_pdf"; "image"] = true)
  /\ exists events : list Event,
       grows s s' events
       /\ Forall allowed events
       /\ (Traces.count_http events <= requests)%nat
       /\ (Traces.count_sleep events <= sleeps)%nat.

Let attempt : M St reply :=
  make_request_attempt strptime org_id method page mode unit url params file.

Lemma comes_to_raise (requests sleeps : nat) (s s' : St) (e : exn)
  (events : list Event) :
  grows s s' events -> Forall allowed events ->
  (Traces.count_http events <= requests)%nat ->
  (Traces.count_sleep events <= sleeps)%nat ->
  comes_to requests sleeps s (Raise e) s'.
Proof.
  intros Hgrows Hallowed Hhttp Hsleep.
  split; [discriminate |]. split; [discriminate |]. split; [discriminate |].
  now exists events.
Qed.

Lemma attempt_comes_to (s s' : St) (o : outcome reply) :
  attempt s = (o, s') -> comes_to 1 0 s o s'.
Proof.
  unfold attempt, make_request_attempt. destruct url as [u |] eqn:Hurl.
  - rewrite bind_ret. unfold bind at 1.
    destruct (get_headers strptime s) as [[hdrs | e |] s1] eqn:Hheaders;
      apply get_headers_grows in Hheaders; destruct Hheaders as [Hfuel Htoken];
      [| | now contradiction Hfuel].
    + assert (Hquery : exists q, grows s s1 q /\ Forall allowed q
                                /\ Traces.count_http q = 0%nat
                                /\ Traces.count_sleep q = 0%nat).
      { destruct Htoken as [Hq | Hq]; eexists; (split; [exact Hq |]).
        - now repeat split.
        - repeat split. constructor; [now left | constructor]. }
      destruct Hquery as [q [Hq [Hallowed [Hhttp Hsleep]]]].
      unfold bind at 1.
      destruct (liftW (request _) s1) as [[response | e |] s2] eqn:Hsent;
        apply request_grows in Hsent; destruct Hsent as [Hfuel2 Hsent];
        [| | now contradiction Hfuel2].
      * assert (Hall : exists events, grows s s2 events /\ Forall allowed events
                         /\ (Traces.count_http events <= 1)%nat
                         /\ (Traces.count_sleep events <= 0)%nat).
        { eexists. split; [exact (grows_trans _ _ _ _ _ Hq Hsent) |].
          split; [| rewrite count_http_app, count_sleep_app, Hhttp, Hsleep;
                    cbn; lia].
          apply Forall_app. split; [assumption |].
          constructor; [| constructor]. right. right. now exists u, hdrs. }
        destruct (in_strs method ["get_pdf"; "image"]) eqn:Hraw; intros Hrun.
        -- inversion Hrun; subst. split; [discriminate |].
           split; [discriminate |]. split; [now intros |]. exact Hall.
        -- destruct Hall as [events [Hg [Ha [Hh Hs]]]].
           pure_step Hrun data Hdata;
             [| inversion Hrun; subst; now apply (comes_to_raise _ _ _ _ _ events)].
           pure_step Hrun code Hcode;
             [| inversion Hrun; subst; now apply (comes_to_raise _ _ _ _ _ events)].
           assert (Hdict : exists d, data = VDict d).
           { destruct data; try discriminate Hcode. now eexists. }
           assert (Hret : comes_to 1 0 s (Ret (Parsed data)) s2).
           { split; [discriminate |]. split.
             - intros data' Heq. inversion Heq; subst. now split.
             - split; [discriminate |]. now exists events. }
           destruct (in_ints code [2; 57]).
           ++ pure_step Hrun ok Hok; inversion Hrun; subst;
                [exact Hret | now apply (comes_to_raise _ _ _ _ _ events)].
           ++ inversion Hrun; subst. exact Hret.
      * intros Hrun. inversion Hrun; subst.
        eapply comes_to_raise.
        -- exact (grows_trans _ _ _ _ _ Hq Hsent).
        -- apply Forall_app. split; [assumption |].
           constructor; [| constructor]. right. right. now exists u, hdrs.
        -- rewrite count_http_app, Hhttp. cbn. lia.
        -- rewrite count_sleep_app, Hsleep. cbn. lia.
    + intros Hrun. inversion Hrun; subst.
      destruct Htoken as [Hq | Hq];
        eapply comes_to_raise; try exact Hq; cbn; try lia.
      * constructor.
      * constructor; [now left | constructor].
  - intros Hrun. inversion Hrun; subst.
    apply (comes_to_raise _ _ _ _ _ []); cbn; try lia.
    + apply grows_refl.
    + constructor.
Qed.

Lemma comes_to_after (requests sleeps : nat) (s s1 s' : St)
  (o : outcome reply) (before : list Event) :
  grows s s1 before -> Forall allowed before ->
  comes_to requests sleeps s1 o s' ->
  comes_to (Traces.count_http before + requests)
           (Traces.count_sleep before + sleeps) s o s'.
Proof.
  intros Hbefore Hallowed (Hfuel & Hparsed & Hraw & events & Hg & Ha & Hh & Hs).
  repeat (split; [assumption |]).
  exists (before ++ events)%list. split; [now apply (grows_trans _ s1) |].
  split; [now apply Forall_app |].
  rewrite count_http_app, count_sleep_app. lia.
Qed.

Lemma comes_to_more (requests sleeps requests' sleeps' : nat) (s s' : St)
  (o : outcome reply) :
  (requests <= requests')%nat -> (sleeps <= sleeps')%nat ->
  comes_to requests sleeps s o s' -> comes_to requests' sleeps' s o s'.
Proof.
  intros Hr Hsl (Hfuel & Hparsed & Hraw & events & Hg & Ha & Hh & Hs).
  repeat (split; [assumption |]). exists events.
  split; [assumption |]. split; [assumption |]. split; lia.
Qed.

Lemma retry_from_comes_to (remaining : nat) :
  forall (s s' : St) (o : outcome reply),
    retry_from (fun seconds => liftW (sleep seconds)) remaining 300 attempt s
      = (o, s') ->
    comes_to (S remaining) remaining s o s'
    /\ forall e, o = Raise e -> e = RetryError.
Proof.
  induction remaining as [| remaining IH]; intros s s' o; cbn [retry_from];
    destruct (attempt s) as [[v | e |] s1] eqn:Hattempt;
    apply attempt_comes_to in Hattempt; intros Hrun.
  - inversion Hrun; subst. split; [| discriminate].
    apply (comes_to_more 1 0); [lia | lia | assumption].
  - inversion Hrun; subst. split; [| now intros e' [= <-]].
    destruct Hattempt as (_ & _ & _ & events & Hg & Ha & Hh & Hs).
    apply (comes_to_raise _ _ _ _ _ events); try assumption; lia.
  - now destruct Hattempt as [Hfuel _].
  - inversion Hrun; subst. split; [| discriminate].
    apply (comes_to_more 1 0); [lia | lia | assumption].
  - change (retry_from (fun seconds => liftW (sleep seconds)) remaining 300
              attempt (slept 300 s1) = (o, s')) in Hrun.
    apply IH in Hrun. destruct Hrun as [Hrest Honly]. split; [| assumption].
    destruct Hattempt as (_ & _ & _ & events & Hg & Ha & Hh & Hs).
    apply (comes_to_more
             (Traces.count_http (events ++ [EvSleep 300]) + S remaining)
             (Traces.count_sleep (events ++ [EvSleep 300]) + remaining)).
    + rewrite count_http_app. cbn. lia.
    + rewrite count_sleep_app. cbn. lia.
    + apply (comes_to_after _ _ _ (slept 300 s1)); try assumption.
      * apply (grows_trans _ s1); [assumption | apply grows_slept].
      * apply Forall_app. split; [assumption |].
        constructor; [right; now left | constructor].
  - now destruct Hattempt as [Hfuel _].
Qed.

Lemma make_request_comes_to (s s' : St) (o : outcome reply) :
  make_request strptime org_id method page mode unit url params file s = (o, s') ->
  comes_to 3 2 s o s' /\ forall e, o = Raise e -> e = RetryError.
Proof. apply (retry_from_comes_to 2). Qed.

End InventoryEffects.

(** ** The Inventory hook: exceptions and requests of a call *)

Lemma in_strs_not_In (s : string) (l : list string) :
  ~ In s l -> in_strs s l = false.
Proof.
  intros Hnot. destruct (in_strs s l) eqn:Hin; [| reflexivity].
  now apply in_strs_In in Hin.
Qed.

Lemma invoice_request_raises (base mode : string) (id updates : pyval)
  (params : pydict) :
  Inventory.invoice_request base mode id updates params <> OutOfFuel
  /\ forall e, Inventory.invoice_request base mode id updates params = Raise e ->
               e = ValueError.
Proof.
  unfold Inventory.invoice_request.
  repeat match goal with
         | |- context [if String.eqb mode ?m then _ else _] =>
             destruct (String.eqb mode m); [split; [discriminate | discriminate] |]
         end.
  split; [discriminate | now intros e [= <-]].
Qed.

Lemma item_request_bound (base mode : string) (item : pyval) (params : pydict) :
  truthy item = true ->
  match Inventory.item_request base mode item params with
  | Ret (_, _, verb) => verb <> None
  | Raise e => e = ValueError
  | OutOfFuel => False
  end.
Proof.
  intros Hitem. unfold Inventory.item_request.
  destruct (String.eqb mode "create"); [discriminate |].
  rewrite item_id_modes. rewrite Hitem, !andb_true_r.
  destruct (in_strs mode ["get"; "delete"; "update"]) eqn:Hmode;
    [| reflexivity].
  unfold in_strs in Hmode. cbn [existsb] in Hmode.
  destruct (String.eqb mode "get"); [discriminate |].
  destruct (String.eqb mode "delete"); [discriminate |].
  destruct (String.eqb mode "update"); [discriminate | discriminate Hmode].
Qed.

Lemma make_request_raise_inv strptime (org_id method : string) (page : Z)
  (mode : string) (unit : pyval) (url : option string) (params : option pydict)
  (file : option pyval) (s s' : Inventory.St) (e : exn) :
  Inventory.make_request strptime org_id method page mode unit url params
    file s = (Raise e, s') ->
  e = RetryError.
Proof.
  intros Hrun. apply make_request_comes_to in Hrun. destruct Hrun as [_ Honly].
  now apply Honly.
Qed.

(** X1. Whatever goes wrong in an attempt of [make_request], a refused
    token, a missing answer, a body that is not JSON, an error status, the
    caller sees one exception only, [RetryError]. *)
Theorem make_request_raises_only_retry_error :
  forall strptime (org_id method : string) (page : Z) (mode : string)
         (unit : pyval) (url : option string) (params : option pydict)
         (file : option pyval) (s s' : Inventory.St) (e : exn),
    Inventory.make_request strptime org_id method page mode unit url params
      file s = (Raise e, s') ->
    e = RetryError.
Proof.
  intros strptime org_id method page mode unit url params file s s' e.
  apply make_request_raise_inv.
Qed.

Lemma make_request_raises_only_retry_error_witness :
  exists s' : Inventory.St,
    Inventory.make_request Fixtures.strptime_table "20071" "pricebooks" 1 "get"
      VNone None None None Fixtures.cold_inventory = (Raise RetryError, s').
Proof.
  destruct (Inventory.make_request Fixtures.strptime_table "20071" "pricebooks"
              1 "get" VNone None None None Fixtures.cold_inventory)
    as [[v | e |] s'] eqn:Hrun.
  - discriminate Hrun.
  - rewrite (make_request_raises_only_retry_error _ _ _ _ _ _ _ _ _ _ _ _ Hrun).
    now exists s'.
  - discriminate Hrun.
Defined.

(** X2. A call of [make_request] sends at most three requests and sleeps at
    most twice, 300 seconds each time; besides these the only thing it does
    to the world is to read the exported token.  Every request it sends is the
    one built from its arguments, so none is sent when no url is given. *)
Theorem make_request_sends_at_most_three_requests :
  forall strptime (org_id method : string) (page : Z) (mode : string)
         (unit : pyval) (url : option string) (params : option pydict)
         (file : option pyval) (s s' : Inventory.St) (o : outcome Inventory.reply),
    Inventory.make_request strptime org_id method page mode unit url params
      file s = (o, s') ->
    exists events : list Event,
      trace (Inventory.world s')
        = (trace (Inventory.world s) ++ events)%list
      /\ (Traces.count_http events <= 3)%nat
      /\ (Traces.count_sleep events <= 2)%nat
      /\ forall ev, In ev events ->
           ev = EvQuery Inventory.token_sql
           \/ ev = EvSleep 300
           \/ exists (u : string) (hdrs : pydict),
                url = Some u
                /\ ev = EvHttp (Inventory.attempt_request org_id method page
                                  mode unit u params file hdrs).
Proof.
  intros strptime org_id method page mode unit url params file s s' o Hrun.
  apply make_request_comes_to in Hrun.
  destruct Hrun as [(_ & _ & _ & events & [_ Htrace] & Hallowed & Hh & Hs) _].
  exists events. repeat (split; [assumption |]).
  now apply Forall_forall.
Qed.

Lemma make_request_sends_at_most_three_requests_witness :
  exists events : list Event,
    trace (Inventory.world
             (snd (Inventory.make_request Fixtures.strptime_table "20071"
                     "get_item" 1 "get" VNone (Some Fixtures.an_item_url)
                     (Some (Inventory.get_params "20071")) None
                     Fixtures.denied_once)))
    = events
    /\ Traces.count_http events = 2%nat
    /\ (Traces.count_http events <= 3)%nat
    /\ (Traces.count_sleep events <= 2)%nat.
Proof.
  destruct (make_request_sends_at_most_three_requests Fixtures.strptime_table
              "20071" "get_item" 1 "get" VNone (Some Fixtures.an_item_url)
              (Some (Inventory.get_params "20071")) None Fixtures.denied_once
              _ _ (surjective_pairing _)) as [events [Htrace [Hhttp [Hsleep _]]]].
  exists events. change (trace (Inventory.world Fixtures.denied_once) ++ events)%list
    with events in Htrace.
  split; [exact Htrace |]. split; [| split; assumption].
  rewrite <- Htrace. reflexivity.
Defined.

(** X3. The only exceptions that [invoice] and [item] raise are [ValueError],
    for arguments they refuse, and [RetryError], from [make_request]; in
    particular [item] never reaches its request with the verb unset. *)
Theorem invoice_and_item_raise_value_or_retry_error :
  forall strptime (org_id mode : string) (id updates : pyval)
         (s s' : Inventory.St) (e : exn),
    Inventory.invoice strptime org_id id updates mode s = (Raise e, s')
    \/ Inventory.item strptime org_id mode id updates s = (Raise e, s') ->
    e = ValueError \/ e = RetryError.
Proof.
  intros strptime org_id mode id updates s s' e [Hrun | Hrun].
  - unfold Inventory.invoice in Hrun.
    rewrite bind_pure, invoice_id_modes in Hrun.
    destruct (in_strs mode _ && negb (truthy id))%bool;
      [left; now inversion Hrun |].
    rewrite bind_gets, bind_pure in Hrun.
    destruct (invoice_request_raises (Inventory.endpoint (Inventory.self s))
                mode id updates (Inventory.get_params org_id)) as [Hfuel Hvalue].
    destruct (Inventory.invoice_request _ _ _ _ _) as [[[p u] v] | e' |].
    + right. now apply make_request_raise_inv in Hrun.
    + left. inversion Hrun; subst. now apply Hvalue.
    + now contradiction Hfuel.
  - unfold Inventory.item in Hrun.
    rewrite bind_pure, item_id_modes in Hrun.
    destruct (in_strs mode ["get"; "delete"; "update"]) eqn:Hmode;
      destruct (truthy id) eqn:Hid; cbn [andb negb] in Hrun;
      try (left; now inversion Hrun);
      rewrite bind_gets, bind_pure in Hrun.
    + pose proof (item_request_bound (Inventory.endpoint (Inventory.self s))
                    mode id
                    (dict_set "JSONString" (VStr (py_str updates))
                       (Inventory.get_params org_id)) Hid) as Hplan.
      destruct (Inventory.item_request _ _ _ _) as [[[p u] [v |]] | e' |].
      * right. now apply make_request_raise_inv in Hrun.
      * now contradiction Hplan.
      * left. inversion Hrun; now subst.
      * contradiction.
    + pose proof (item_request_bound (Inventory.endpoint (Inventory.self s))
                    mode id
                    (dict_set "JSONString" (VStr (py_str updates))
                       (Inventory.get_params org_id)) Hid) as Hplan.
      destruct (Inventory.item_request _ _ _ _) as [[[p u] [v |]] | e' |].
      * right. now apply make_request_raise_inv in Hrun.
      * now contradiction Hplan.
      * left. inversion Hrun; now subst.
      * contradiction.
    + (* no id, and a mode that needs none *)
      unfold Inventory.item_request in Hrun. rewrite item_id_modes, Hmode in Hrun.
      destruct (String.eqb mode "create").
      * right. now apply make_request_raise_inv in Hrun.
      * left. now inversion Hrun.
Qed.

Lemma invoice_and_item_raise_value_or_retry_error_witness :
  Inventory.item Fixtures.strptime_table "20071" "rename" (VStr "460000000027009")
    VNone Fixtures.cold_inventory
  = (Raise ValueError, Fixtures.cold_inventory)
  /\ (ValueError = ValueError \/ ValueError = RetryError).
Proof.
  assert (Hrun :
    Inventory.item Fixtures.strptime_table "20071" "rename"
      (VStr "460000000027009") VNone Fixtures.cold_inventory
    = (Raise ValueError, Fixtures.cold_inventory)) by reflexivity.
  split; [exact Hrun |].
  exact (invoice_and_item_raise_value_or_retry_error _ _ _ _ _ _ _ _
           (or_intror Hrun)).
Defined.

(** Rewrites every test of [mode] against a name that [Hnot] rules out. *)
Ltac none_of_the_modes mode Hnot :=
  repeat match goal with
         | |- context [String.eqb mode ?m] =>
             let H := fresh "Hmode" in
             assert (H : String.eqb mode m = false)
               by (apply String.eqb_neq; intros Heq; apply Hnot; rewrite Heq;
                   simpl; tauto);
             rewrite H; clear H
         end.

(** X4. Arguments that a method refuses are refused before anything else
    happens: an unknown mode of [invoice], [item] or [post_item_status], a
    document kind of [get_pdf] other than invoice and creditnote, and no id
    for [purchase_order] raise [ValueError] and leave the hook and the world
    as they were. *)
Theorem refused_arguments_leave_no_trace :
  forall strptime (org_id : string) (s : Inventory.St),
    (forall (mode : string) (id updates : pyval),
        ~ In mode ["update"; "get"; "create"; "draft"; "submit"; "approve";
                   "void"; "sent"; "delete"] ->
        Inventory.invoice strptime org_id id updates mode s
        = (Raise ValueError, s))
    /\ (forall (mode : string) (id updates : pyval),
          ~ In mode ["create"; "get"; "delete"; "update"] ->
          Inventory.item strptime org_id mode id updates s
          = (Raise ValueError, s))
    /\ (forall (mode : string) (item_id : pyval),
          ~ In (InventoryEntities.lower mode) ["active"; "inactive"] ->
          InventoryEntities.post_item_status strptime org_id item_id mode s
          = (Raise ValueError, s))
    /\ (forall record_id method : pyval,
          eq_str method "invoice" = false ->
          eq_str method "creditnote" = false ->
          InventoryEntities.get_pdf strptime org_id record_id method s
          = (Raise ValueError, s))
    /\ InventoryEntities.purchase_order strptime org_id VNone s
       = (Raise ValueError, s).
Proof.
  intros strptime org_id s. repeat apply conj.
  - intros mode id updates Hnot. unfold Inventory.invoice.
    rewrite bind_pure, invoice_id_modes.
    rewrite in_strs_not_In by (intros Hin; apply Hnot; simpl in *; tauto).
    cbn [andb]. rewrite bind_gets, bind_pure.
    unfold Inventory.invoice_request. now none_of_the_modes mode Hnot.
  - intros mode id updates Hnot. unfold Inventory.item.
    rewrite bind_pure, item_id_modes.
    rewrite in_strs_not_In by (intros Hin; apply Hnot; simpl in *; tauto).
    cbn [andb]. rewrite bind_gets, bind_pure.
    unfold Inventory.item_request. rewrite item_id_modes.
    rewrite in_strs_not_In by (intros Hin; apply Hnot; simpl in *; tauto).
    now none_of_the_modes mode Hnot.
  - intros mode item_id Hnot. unfold InventoryEntities.post_item_status.
    rewrite bind_gets. now none_of_the_modes (InventoryEntities.lower mode) Hnot.
  - intros record_id method Hinvoice Hcredit.
    unfold InventoryEntities.get_pdf. rewrite bind_gets.
    now rewrite Hinvoice, Hcredit.
  - reflexivity.
Qed.

Lemma prefix_append (a b : string) : String.prefix a (a ++ b) = true.
Proof.
  induction a as [| c a IH]; simpl; [now destruct b |].
  now destruct (ascii_dec c c).
Qed.

Lemma append_assoc (a b c : string) : ((a ++ b) ++ c = a ++ (b ++ c))%string.
Proof. induction a as [| x a IH]; simpl; [reflexivity | now rewrite IH]. Qed.

Lemma prefix_under (base a full rest : string) :
  full = (a ++ rest)%string ->
  String.prefix (base ++ a) (base ++ full) = true.
Proof. intros ->. rewrite <- append_assoc. apply prefix_append. Qed.

Lemma invoice_request_shape (base mode org_id : string) (id updates : pyval)
  (p : pydict) (u v : string) :
  Inventory.invoice_request base mode id updates (Inventory.get_params org_id)
    = Ret (p, u, v) ->
  dict_get "organization_id" p = Some (VStr org_id)
  /\ In (upper v) ["PUT"; "GET"; "POST"; "DELETE"]
  /\ String.prefix (base ++ "invoices") u = true.
Proof.
  unfold Inventory.invoice_request.
  repeat match goal with
         | |- context [if String.eqb mode ?m then _ else _] =>
             destruct (String.eqb mode m);
             [intros [= <- <- <-];
              split; [reflexivity
                     | split; [simpl; tauto
                              | eapply prefix_under; reflexivity]] |]
         end.
  discriminate.
Qed.

(** X5. Whatever [invoice] is asked to do, every request it sends goes to a
    url below [{endpoint}invoices], with one of the verbs PUT, GET, POST and
    DELETE, without a file, and with the organization id among its
    parameters; it sends at most three of them. *)
Theorem invoice_requests_stay_below_invoices :
  forall strptime (org_id mode : string) (id updates : pyval)
         (s s' : Inventory.St) (o : outcome Inventory.reply),
    Inventory.invoice strptime org_id id updates mode s = (o, s') ->
    exists events : list Event,
      trace (Inventory.world s') = (trace (Inventory.world s) ++ events)%list
      /\ (Traces.count_http events <= 3)%nat
      /\ forall r : Request,
           In (EvHttp r) events ->
           (exists p, params r = Some p
                      /\ dict_get "organization_id" p = Some (VStr org_id))
           /\ In (verb r) ["PUT"; "GET"; "POST"; "DELETE"]
           /\ String.prefix
                (Inventory.endpoint (Inventory.self s) ++ "invoices") (url r)
              = true
           /\ files r = None.
Proof.
  intros strptime org_id mode id updates s s' o Hrun.
  assert (Hnothing : forall e, (Raise e, s) = (o, s') ->
            exists events : list Event,
              trace (Inventory.world s')
                = (trace (Inventory.world s) ++ events)%list
              /\ (Traces.count_http events <= 3)%nat
              /\ forall r : Request,
                   In (EvHttp r) events ->
                   (exists p, params r = Some p
                      /\ dict_get "organization_id" p = Some (VStr org_id))
                   /\ In (verb r) ["PUT"; "GET"; "POST"; "DELETE"]
                   /\ String.prefix
                        (Inventory.endpoint (Inventory.self s) ++ "invoices")
                        (url r) = true
                   /\ files r = None).
  { intros e [= <- <-]. exists []. rewrite app_nil_r.
    split; [reflexivity |]. split; [cbn; lia | intros r []]. }
  unfold Inventory.invoice in Hrun.
  rewrite bind_pure, invoice_id_modes in Hrun.
  destruct (in_strs mode _ && negb (truthy id))%bool; [now apply (Hnothing ValueError) |].
  rewrite bind_gets, bind_pure in Hrun.
  destruct (Inventory.invoice_request _ _ _ _ _) as [[[p u] v] | e |] eqn:Hplan.
  - apply invoice_request_shape in Hplan.
    destruct Hplan as [Horg [Hverb Hurl]].
    apply make_request_comes_to in Hrun.
    destruct Hrun as [(_ & _ & _ & events & [_ Htrace] & Hallowed & Hh & _) _].
    exists events. split; [assumption |]. split; [assumption |].
    intros r Hin. rewrite Forall_forall in Hallowed.
    destruct (Hallowed _ Hin) as [Hq | [Hsl | [u' [hdrs [[= <-] [= ->]]]]]];
      try discriminate.
    cbn [params verb url files Inventory.attempt_request].
    split; [now exists p |]. now repeat split.
  - now apply (Hnothing e).
  - exfalso.
    now destruct (invoice_request_raises (Inventory.endpoint (Inventory.self s))
                    mode id updates (Inventory.get_params org_id)) as [Hfuel _].
Qed.

Lemma invoice_requests_stay_below_invoices_witness :
  exists r : Request,
    trace (Inventory.world
             (snd (Inventory.invoice Fixtures.strptime_table "20071"
                     (VStr "460000000027009") VNone "approve"
                     (Fixtures.warm_inventory
                        [(usec, inr (Fixtures.answer 200 Fixtures.an_item))]))))
    = [EvHttp r]
    /\ verb r = "POST"
    /\ url r = "https://inventory.zoho.eu/api/v1/invoices/460000000027009/approve"
    /\ String.prefix "https://inventory.zoho.eu/api/v1/invoices" (url r) = true.
Proof.
  destruct (invoice_requests_stay_below_invoices Fixtures.strptime_table "20071"
              "approve" (VStr "460000000027009") VNone
              (Fixtures.warm_inventory
                 [(usec, inr (Fixtures.answer 200 Fixtures.an_item))])
              _ _ (surjective_pairing _)) as [events [Htrace [_ Hall]]].
  eexists. split; [reflexivity |]. split; [reflexivity |].
  split; [reflexivity |].
  refine (proj1 (proj2 (proj2 (Hall _ _)))).
  change (trace (Inventory.world (Fixtures.warm_inventory
            [(usec, inr (Fixtures.answer 200 Fixtures.an_item))])) ++ events)%list
    with events in Htrace.
  rewrite <- Htrace. now left.
Defined.

Lemma slept_twice (s : Inventory.St) :
  trace (Inventory.world (Inventory.slept 300 (Inventory.slept 300 s)))
    = (trace (Inventory.world s) ++ [EvSleep 300; EvSleep 300])%list
  /\ now (Inventory.world (Inventory.slept 300 (Inventory.slept 300 s)))
     = now (Inventory.world s) + 600 * usec
  /\ Inventory.self (Inventory.slept 300 (Inventory.slept 300 s))
     = Inventory.self s.
Proof.
  split; [| split].
  - cbn. now rewrite <- app_assoc.
  - cbn. unfold usec. lia.
  - reflexivity.
Qed.

(** X6. Three methods never reach the server.  [get_item_details] asks
    [get_url] for its url and raises its [NameError] at once.  [price_list],
    and [contacts] in every mode other than put, post, delete and inactive
    (the default mode, get, is one), hand no url to [make_request]: the call
    sleeps twice 300 seconds and raises [RetryError], and the two sleeps are
    all it leaves on the trace. *)
Theorem methods_without_url_send_nothing :
  forall strptime (org_id : string) (s : Inventory.St),
    (forall items : pyval,
        InventoryEntities.get_item_details strptime org_id items s
        = (Raise NameError, s))
    /\ (forall mode : string,
          InventoryEntities.price_list strptime org_id mode s
          = (Raise RetryError, Inventory.slept 300 (Inventory.slept 300 s)))
    /\ (forall (mode : string) (contact contact_id : pyval),
          ~ In mode ["put"; "post"; "delete"; "inactive"] ->
          InventoryEntities.contacts strptime org_id mode contact contact_id s
          = (Raise RetryError, Inventory.slept 300 (Inventory.slept 300 s)))
    /\ trace (Inventory.world (Inventory.slept 300 (Inventory.slept 300 s)))
       = (trace (Inventory.world s) ++ [EvSleep 300; EvSleep 300])%list
    /\ now (Inventory.world (Inventory.slept 300 (Inventory.slept 300 s)))
       = now (Inventory.world s) + 600 * usec.
Proof.
  intros strptime org_id s. repeat apply conj.
  - reflexivity.
  - reflexivity.
  - intros mode contact contact_id Hnot. unfold InventoryEntities.contacts.
    rewrite bind_gets. unfold InventoryEntities.contacts_request.
    none_of_the_modes mode Hnot.
    unfold bind at 1. now rewrite make_request_without_url.
  - apply slept_twice.
  - apply slept_twice.
Qed.

(** X7. [get_item] hands back only a parsed body that has a [message]: when
    the answer has none, the method raises [KeyError] after the request was
    made and answered. *)
Theorem get_item_needs_a_message :
  forall strptime (org_id : string) (item : pyval) (s : Inventory.St),
    (forall (r : Inventory.reply) (s' : Inventory.St),
        InventoryEntities.get_item strptime org_id item s = (Ret r, s') ->
        exists (d : pydict) (m : pyval),
          r = Inventory.Parsed (VDict d) /\ dict_get "message" d = Some m)
    /\ (forall (d : pydict) (s1 : Inventory.St),
          Inventory.make_request strptime org_id "get_item" 1 "get" VNone
            (Some (Inventory.endpoint (Inventory.self s) ++ "items/"
                   ++ py_str item))
            (Some (Inventory.get_params org_id)) None s
          = (Ret (Inventory.Parsed (VDict d)), s1) ->
          dict_get "message" d = None ->
          InventoryEntities.get_item strptime org_id item s
          = (Raise KeyError, s1)).
Proof.
  intros strptime org_id item s. split.
  - intros r s' Hrun. unfold InventoryEntities.get_item in Hrun.
    rewrite bind_gets in Hrun. unfold bind at 1 in Hrun.
    destruct (Inventory.make_request _ _ _ _ _ _ _ _ _ _)
      as [[r' | e |] s1] eqn:Hcall; try discriminate Hrun.
    apply make_request_comes_to in Hcall.
    destruct Hcall as [(_ & Hparsed & Hraw & _) _].
    destruct r' as [response | data].
    + now specialize (Hraw response eq_refl).
    + destruct (Hparsed data eq_refl) as [[d ->] _].
      rewrite bind_pure in Hrun. cbn [InventoryEntities.reply_getitem py_getitem]
        in Hrun.
      destruct (dict_get "message" d) as [m |] eqn:Hm; [| discriminate Hrun].
      inversion Hrun; subst. now exists d, m.
  - intros d s1 Hcall Hnone. unfold InventoryEntities.get_item.
    rewrite bind_gets, (bind_run _ _ _ _ _ Hcall), bind_pure.
    cbn [InventoryEntities.reply_getitem py_getitem]. now rewrite Hnone.
Qed.

Lemma get_item_needs_a_message_witness :
  exists s' : Inventory.St,
    InventoryEntities.get_item Fixtures.strptime_table "20071"
      (VStr "460000000027009") Scenarios.served_without_message
    = (Raise KeyError, s')
    /\ Traces.count_http (trace (Inventory.world s')) = 1%nat.
Proof.
  eexists. split.
  - eapply (proj2 (get_item_needs_a_message Fixtures.strptime_table "20071"
                     (VStr "460000000027009")
                     Scenarios.served_without_message)).
    + vm_compute. reflexivity.
    + reflexivity.
  - reflexivity.
Defined.

(** X8. [get_pdf] returns the response of the server as it is, whatever its
    status and its body: for an invoice or a creditnote, once the headers
    are got and the request is answered, the call ends with that response
    after one GET request for the pdf, and nothing is retried. *)
Theorem get_pdf_returns_any_answer :
  forall strptime (org_id kind : string) (record_id : pyval)
         (s s1 : Inventory.St) (hdrs : pydict) (took : Z) (response : Response)
         (rest : list (Z * (exn + Response))),
    In kind ["invoice"; "creditnote"] ->
    Inventory.get_headers strptime s = (Ret hdrs, s1) ->
    http_script (Inventory.world s1) = (took, inr response) :: rest ->
    InventoryEntities.get_pdf strptime org_id record_id (VStr kind) s
    = (Ret (Inventory.Raw response),
       {| Inventory.self := Inventory.self s1;
          Inventory.world :=
            answered (Inventory.world s1)
              {| verb := "GET";
                 url := Inventory.endpoint (Inventory.self s) ++ kind ++ "s/"
                        ++ py_str record_id;
                 params := Some [("organization_id", VStr org_id);
                                 ("oauthscope", VStr "ZohoInventory.invoices.READ");
                                 ("accept", VStr "pdf")];
                 headers := Some hdrs; json := None; files := None;
                 stream := false |}
              took rest |}).
Proof.
  intros strptime org_id kind record_id s s1 hdrs took response rest Hkind
    Hheaders Hscript.
  unfold InventoryEntities.get_pdf. rewrite bind_gets.
  assert (Hcall : forall u,
    Inventory.make_request strptime org_id "get_pdf" 1 "get" VNone (Some u)
      (Some [("organization_id", VStr org_id);
             ("oauthscope", VStr "ZohoInventory.invoices.READ");
             ("accept", VStr "pdf")]) None s
    = (Ret (Inventory.Raw response),
       {| Inventory.self := Inventory.self s1;
          Inventory.world :=
            answered (Inventory.world s1)
              (Inventory.attempt_request org_id "get_pdf" 1 "get" VNone u
                 (Some [("organization_id", VStr org_id);
                        ("oauthscope", VStr "ZohoInventory.invoices.READ");
                        ("accept", VStr "pdf")]) None hdrs) took rest |})).
  { intros u. rewrite call_unfolded.
    now rewrite (attempt_answered strptime org_id "get_pdf" 1 "get" VNone u _
                   None s s1 hdrs took response rest Hheaders Hscript). }
  destruct Hkind as [<- | [<- | []]]; cbn [eq_str String.eqb Ascii.eqb Bool.eqb];
    rewrite bind_ret; cbn [dict_set Inventory.get_params String.eqb Ascii.eqb
                             Bool.eqb];
    rewrite (bind_run _ _ _ _ _ (Hcall _)); reflexivity.
Qed.

Lemma get_pdf_returns_any_answer_witness :
  exists s' : Inventory.St,
    InventoryEntities.get_pdf Fixtures.strptime_table "20071"
      (VStr "460000000027009") (VStr "creditnote") Fixtures.denied_once
    = (Ret (Inventory.Raw (Fixtures.answer 401 Fixtures.denied)), s')
    /\ Traces.count_http (trace (Inventory.world s')) = 1%nat
    /\ Traces.count_sleep (trace (Inventory.world s')) = 0%nat.
Proof.
  eexists. split.
  - apply (get_pdf_returns_any_answer Fixtures.strptime_table "20071"
             "creditnote" (VStr "460000000027009") Fixtures.denied_once
             Fixtures.denied_once
             [("Authorization", VStr "Zoho-oauthtoken bearer-9")] usec
             (Fixtures.answer 401 Fixtures.denied)
             [(usec, inr (Fixtures.answer 200 Fixtures.an_item))]).
    + simpl. tauto.
    + reflexivity.
    + reflexivity.
  - split; reflexivity.
Defined.

(** ** The Inventory hook: a token that does not parse *)

(** X9. [get_token] puts the exported token into the cache before it parses
    its expiry.  When the text of the expiry does not parse, the call raises
    [ValueError] and the cache keeps the exported token with the text in
    place of a time; from then on every [get_token], whatever the clock and
    the exported tokens, raises [TypeError] at its comparison and reads
    nothing. *)
Theorem unparsed_expiry_stays_in_cache :
  forall strptime (s : Inventory.St) (expires_at : Z) (exported : pydict)
         (text : string) (rest : list (exn + pyval)),
    py_get (Inventory.token (Inventory.self s)) "expires_at"
      = Ret (VDatetime expires_at) ->
    expires_at <= now (Inventory.world s) + 300 * usec ->
    bigquery_script (Inventory.world s) = inr (VDict exported) :: rest ->
    dict_get "expires_at" exported = Some (VStr text) ->
    strptime text = None ->
    let spoilt := Inventory.with_token (Inventory.self s) (VDict exported) in
    Inventory.get_token strptime s
    = (Raise ValueError,
       {| Inventory.self := spoilt;
          Inventory.world := Inventory.queried (Inventory.world s) rest |})
    /\ forall w : World,
         Inventory.get_token strptime
           {| Inventory.self := spoilt; Inventory.world := w |}
         = (Raise TypeError, {| Inventory.self := spoilt; Inventory.world := w |}).
Proof.
  intros strptime s expires_at exported text rest Hexpires Hold Hscript Htext
    Hparse spoilt.
  split.
  - destruct s as [h w]. cbn [Inventory.self Inventory.world] in *.
    apply Z.leb_le in Hold. rewrite Z.leb_antisym in Hold.
    apply negb_true_iff in Hold. unfold Inventory.get_token.
    rewrite (bind_run _ _ _ _ _ (inventory_utcnow h w)), bind_gets.
    cbn [Inventory.self Inventory.world].
    rewrite bind_pure, Hexpires, bind_pure.
    cbn [Inventory.datetime_lt]. rewrite Hold.
    rewrite (bind_run _ _ _ _ _ (inventory_query h w _ rest Hscript)).
    unfold bind at 1, Inventory.set_token at 1, modify at 1.
    cbn [Inventory.self Inventory.world].
    rewrite bind_pure. cbn [py_getitem]. rewrite Htext.
    rewrite bind_pure. cbn [Inventory.py_strptime]. now rewrite Hparse.
  - intros w. unfold Inventory.get_token.
    rewrite (bind_run _ _ _ _ _ (inventory_utcnow spoilt w)), bind_gets.
    cbn [Inventory.self Inventory.world Inventory.token spoilt
         Inventory.with_token].
    rewrite bind_pure. cbn [py_get]. now rewrite Htext.
Qed.

Lemma unparsed_expiry_stays_in_cache_witness :
  exists s' : Inventory.St,
    Inventory.get_token (fun _ => None) Fixtures.cold_inventory
    = (Raise ValueError, s')
    /\ Inventory.get_token (fun _ => None) s' = (Raise TypeError, s').
Proof.
  destruct (unparsed_expiry_stays_in_cache (fun _ => None)
              Fixtures.cold_inventory (1546300800 * usec)
              Fixtures.exported_token Fixtures.an_hour_later_text []
              eq_refl ltac:(vm_compute; discriminate) eq_refl eq_refl eq_refl)
    as [Hfirst Hlater].
  eexists. split; [exact Hfirst | apply Hlater].
Defined.

(** ** The Creator hook: more on the token cache *)

(** X10. A call of the Creator [get_token] that returns is followed, as long
    as the clock stands still, by calls that return the same token and do
    nothing: the token it has just stored is stamped with the time of its
    arrival and so passes the check. *)
Theorem creator_get_token_twice :
  forall (s s' : Creator.St) (t : Creator.Token),
    Creator.get_token s = (Ret t, s') ->
    Creator.get_token s' = (Ret t, s').
Proof.
  intros s s' t Hrun.
  destruct (Z_le_gt_dec
              (now (Creator.world s)
               - Creator.created_at (Creator._token (Creator.self s)))
              (3600 * usec)) as [Hvalid | Hstale].
  - rewrite (creator_get_token_cached s Hvalid) in Hrun.
    inversion Hrun; subst. now apply creator_get_token_cached.
  - apply creator_get_token_stale in Hrun; [| lia].
    destruct Hrun as (conn & refresh & took & response & rest & body & -> & _
                      & _ & _ & Hstamp).
    rewrite creator_get_token_cached; [reflexivity |].
    cbn. rewrite Hstamp. unfold usec. lia.
Qed.

Lemma creator_get_token_twice_witness :
  exists s' : Creator.St,
    Creator.get_token Fixtures.cold_creator
    = (Ret {| Creator.token := VStr "bearer-2";
              Creator.created_at := Fixtures.a_morning + 2 * usec |}, s')
    /\ Creator.get_token s'
       = (Ret {| Creator.token := VStr "bearer-2";
                 Creator.created_at := Fixtures.a_morning + 2 * usec |}, s')
    /\ Traces.count_http (trace (Creator.world s')) = 1%nat.
Proof.
  eexists.
  assert (Hrun : Creator.get_token Fixtures.cold_creator = (_, _))
    by (vm_compute; reflexivity).
  split; [exact Hrun |].
  split; [exact (creator_get_token_twice _ _ _ Hrun) | reflexivity].
Defined.

(** X11. A call of the Creator [get_token] that raises leaves the hook as it
    was, cached token included: the cache is written last, after the answer
    has been parsed and its [access_token] found.  An answer without
    [access_token], which is what the token endpoint sends when it refuses,
    raises [KeyError] after the request was sent. *)
Theorem creator_get_token_failure_keeps_cache :
  (forall (s s' : Creator.St) (e : exn),
      Creator.get_token s = (Raise e, s') -> Creator.self s' = Creator.self s)
  /\ (forall (s : Creator.St) conn extra_json refresh_token took response rest
             (body : pydict),
        ~ Creator.token_valid s ->
        dict_get (Creator.conn_id (Creator.self s))
                 (connections (Creator.world s)) = Some conn ->
        extra conn = Some extra_json ->
        py_getitem extra_json "refresh_token" = Ret refresh_token ->
        http_script (Creator.world s) = (took, inr response) :: rest ->
        response_json response = Ret (VDict body) ->
        dict_get "access_token" body = None ->
        Creator.get_token s
        = (Raise KeyError,
           {| Creator.self := Creator.self s;
              Creator.world :=
                answered (Creator.world s)
                  (Creator.token_request conn refresh_token) took rest |})).
Proof.
  split.
  - intros s s' e Hrun. destruct s as [h w]. unfold Creator.get_token in Hrun.
    rewrite (bind_run _ _ _ _ _ (creator_utcnow h w)), bind_gets in Hrun.
    cbn [Creator.self Creator.world] in Hrun.
    destruct (now w - Creator.created_at (Creator._token h) <=? 3600 * usec);
      [discriminate Hrun |].
    unfold bind at 1 in Hrun.
    destruct (Creator.get_conn _) as [[conn | e' |] s1] eqn:Hconn;
      try discriminate Hrun.
    + apply creator_get_conn_inv in Hconn. destruct Hconn as [_ ->].
      rewrite bind_pure in Hrun.
      destruct (extra conn) as [extra_json |]; [| now inversion Hrun].
      pure_step Hrun refresh_token Hrefresh; [| now inversion Hrun].
      unfold bind at 1 in Hrun.
      destruct (Creator.liftW (request _) _) as [[response | e' |] s1] eqn:Hsent;
        unfold Creator.liftW in Hsent; cbn [Creator.self Creator.world] in Hsent;
        destruct (request _ w) as [o w1]; inversion Hsent; subst;
        try discriminate Hrun.
      * pure_step Hrun body Hbody; [| now inversion Hrun].
        pure_step Hrun access_token Haccess; [discriminate Hrun |].
        now inversion Hrun.
      * now inversion Hrun.
    + unfold Creator.get_conn in Hconn. rewrite bind_gets in Hconn.
      unfold Creator.liftW, get_connection in Hconn.
      cbn [Creator.self Creator.world] in Hconn.
      destruct (dict_get _ _); inversion Hconn; subst. now inversion Hrun.
  - intros s conn extra_json refresh_token took response rest body Hstale Hconn
      Hextra Hrefresh Hscript Hbody Haccess.
    destruct s as [h w]. unfold Creator.token_valid in Hstale.
    cbn [Creator.self Creator.world] in *.
    assert (Hold : (now w - Creator.created_at (Creator._token h)
                    <=? 3600 * usec) = false) by (apply Z.leb_gt; lia).
    unfold Creator.get_token.
    rewrite (bind_run _ _ _ _ _ (creator_utcnow h w)), bind_gets.
    cbn [Creator.self Creator.world]. rewrite Hold.
    rewrite (bind_run _ _ _ _ _ (creator_get_conn h w conn Hconn)).
    rewrite bind_pure, Hextra, bind_pure, Hrefresh.
    rewrite (bind_run _ _ _ _ _
               (creator_request h w _ took response rest Hscript)).
    rewrite bind_pure, Hbody, bind_pure. cbn [py_getitem]. now rewrite Haccess.
Qed.

(** ** The Creator hook: views, records and listings *)

Section CreatorAnswers.

Import Creator CreatorRecords.

Lemma scoped_headers_run (scope : string) (s s1 : St) (hdrs : pydict) :
  get_headers s = (Ret hdrs, s1) ->
  scoped_headers scope s = (Ret (dict_set "scope" (VStr scope) hdrs), s1).
Proof.
  intros Hheaders. unfold scoped_headers.
  now rewrite (bind_run _ _ _ _ _ Hheaders).
Qed.

(** X12. [get_view], [create_record], [update_record] and [delete_record]
    return the parsed body of the answer whatever its status: an answer with
    an error status is not raised, it is handed to the caller like any
    other.  Each sends one request, with the token header and the scope of
    the operation. *)
Theorem record_methods_return_any_answer :
  forall (app_name name : string) (start : Z) (record fields : pyval)
         (s s1 : St) (hdrs : pydict) (took : Z) (response : Response)
         (rest : list (Z * (exn + Response))) (body : pyval),
    get_headers s = (Ret hdrs, s1) ->
    http_script (world s1) = (took, inr response) :: rest ->
    response_json response = Ret body ->
    let after r := {| self := self s1;
                      world := answered (world s1) r took rest |} in
    let url := view_url_of (self s1) app_name name in
    let criteria := VStr ("ID = " ++ py_str record) in
    get_view app_name name start s
    = (Ret body,
       after (scoped_request "GET" url "ZohoCreator.report.READ" hdrs
                (Some [("from", VInt start); ("limit", VInt 200)]) None))
    /\ create_record app_name name fields s
       = (Ret body,
          after (scoped_request "POST"
                   (endpoint (self s1) ++ report_creator ++ "/" ++ app_name
                    ++ "/form/" ++ name)
                   "ZohoCreator.form.CREATE" hdrs None
                   (Some (VDict [("data", fields)]))))
    /\ update_record app_name name record fields s
       = (Ret body,
          after (scoped_request "PATCH" url "ZohoCreator.report.UPDATE" hdrs
                   None
                   (Some (VDict [("criteria", criteria); ("data", fields)]))))
    /\ delete_record app_name name record s
       = (Ret body,
          after (scoped_request "DELETE" url "ZohoCreator.report.DELETE" hdrs
                   None (Some (VDict [("criteria", criteria)])))).
Proof.
  intros app_name name start record fields s s1 hdrs took response rest body
    Hheaders Hscript Hbody after url criteria.
  destruct s1 as [h1 w1]. cbn [self world] in *.
  repeat apply conj.
  - unfold get_view.
    rewrite (bind_run _ _ _ _ _ (scoped_headers_run _ _ _ _ Hheaders)).
    rewrite bind_gets.
    rewrite (bind_run _ _ _ _ _ (creator_request h1 w1 _ took response rest
                                   Hscript)).
    unfold pure. now rewrite Hbody.
  - unfold create_record.
    rewrite (bind_run _ _ _ _ _ (scoped_headers_run _ _ _ _ Hheaders)).
    rewrite bind_gets.
    rewrite (bind_run _ _ _ _ _ (creator_request h1 w1 _ took response rest
                                   Hscript)).
    unfold pure. now rewrite Hbody.
  - unfold update_record.
    rewrite (bind_run _ _ _ _ _ (scoped_headers_run _ _ _ _ Hheaders)).
    rewrite bind_gets.
    rewrite (bind_run _ _ _ _ _ (creator_request h1 w1 _ took response rest
                                   Hscript)).
    unfold pure. now rewrite Hbody.
  - unfold delete_record.
    rewrite (bind_run _ _ _ _ _ (scoped_headers_run _ _ _ _ Hheaders)).
    rewrite bind_gets.
    rewrite (bind_run _ _ _ _ _ (creator_request h1 w1 _ took response rest
                                   Hscript)).
    unfold pure. now rewrite Hbody.
Qed.

Lemma record_methods_return_any_answer_witness :
  exists s' : St,
    get_view "shop" "orders" 0 Scenarios.view_is_empty
    = (Ret Scenarios.no_data, s')
    /\ Traces.count_http (trace (world s')) = 1%nat.
Proof.
  eexists. split.
  - exact (proj1 (record_methods_return_any_answer "shop" "orders" 0 VNone VNone
                    Scenarios.view_is_empty Scenarios.view_is_empty
                    [("Authorization", VStr "Zoho-oauthtoken bearer-1")] usec
                    (Fixtures.answer 404 Scenarios.no_data) []
                    Scenarios.no_data eq_refl eq_refl eq_refl)).
  - reflexivity.
Defined.

Lemma collect_details_rows (app_name : string) (items : list pyval) :
  Forall is_dict items ->
  collect_details app_name items = Ret (map (row_of app_name) items).
Proof.
  induction 1 as [| i items [d ->] _ IH]; [reflexivity |].
  cbn [collect_details map]. rewrite IH.
  unfold details_of, row_of, job_get. cbn [py_get].
  now destruct (dict_get "display_name" d), (dict_get "link_name" d).
Qed.

Lemma collect_details_stops (app_name : string) (items : list pyval) :
  ~ Forall is_dict items ->
  collect_details app_name items = Raise AttributeError.
Proof.
  induction items as [| i items IH]; intros Hnot.
  - exfalso. apply Hnot. constructor.
  - cbn [collect_details].
    destruct i as [| b | z | t | l | d | t]; try reflexivity.
    assert (Hrow : details_of app_name (VDict d)
                   = Ret (row_of app_name (VDict d))).
    { unfold details_of, row_of, job_get. cbn [py_get].
      now destruct (dict_get "display_name" d), (dict_get "link_name" d). }
    rewrite Hrow, IH; [reflexivity |].
    intros Hall. apply Hnot. constructor; [now exists d | assumption].
Qed.

Lemma get_listing_answered (kind app_name : string) (s s1 : St) (hdrs : pydict)
  (took : Z) (response : Response) (rest : list (Z * (exn + Response)))
  (data : pyval) :
  get_headers s = (Ret hdrs, s1) ->
  http_script (world s1) = (took, inr response) :: rest ->
  response_json response = Ret data ->
  get_listing kind app_name s
  = (listed <- pure (py_getitem data kind);;
     items <- pure (py_iter listed);;
     goods <- pure (collect_details app_name items);;
     ret {| columns := ["App"; "display_name"; "link_name"]; rows := goods |})
      {| self := self s1;
         world := answered (world s1)
                    (scoped_request "GET"
                       (endpoint (self s1) ++ report_creator ++ "/" ++ app_name
                        ++ "/" ++ kind)
                       "ZohoCreator.meta.application.READ" hdrs None None)
                    took rest |}.
Proof.
  intros Hheaders Hscript Hdata. destruct s1 as [h1 w1]. cbn [self world] in *.
  unfold get_listing.
  rewrite (bind_run _ _ _ _ _ (scoped_headers_run _ _ _ _ Hheaders)).
  rewrite bind_gets.
  rewrite (bind_run _ _ _ _ _ (creator_request h1 w1 _ took response rest
                                 Hscript)).
  now rewrite bind_pure, Hdata.
Qed.

(** X13. [get_forms] and [get_reports] give one row for each entry of the
    list under [forms] (or [reports]) in the answer, in the order of the
    list: the application name, then the display name and the link name of
    the entry, [None] for a name the entry does not have.  An empty list
    gives a table without rows.  An answer without that key raises
    [KeyError], and a list with an entry that is not an object raises
    [AttributeError]; both after the request was answered. *)
Theorem listings_have_one_row_per_entry :
  forall (app_name : string) (s s1 : St) (hdrs : pydict) (took : Z)
         (response : Response) (rest : list (Z * (exn + Response)))
         (data : pydict),
    get_headers s = (Ret hdrs, s1) ->
    http_script (world s1) = (took, inr response) :: rest ->
    response_json response = Ret (VDict data) ->
    let after kind :=
      {| self := self s1;
         world := answered (world s1)
                    (scoped_request "GET"
                       (endpoint (self s1) ++ report_creator ++ "/" ++ app_name
                        ++ "/" ++ kind)
                       "ZohoCreator.meta.application.READ" hdrs None None)
                    took rest |} in
    let table items :=
      {| columns := ["App"; "display_name"; "link_name"];
         rows := map (row_of app_name) items |} in
    (forall items, dict_get "forms" data = Some (VList items) ->
                   Forall is_dict items ->
                   get_forms app_name s = (Ret (table items), after "forms"))
    /\ (forall items, dict_get "reports" data = Some (VList items) ->
                      Forall is_dict items ->
                      get_reports app_name s = (Ret (table items), after "reports"))
    /\ (forall items, dict_get "forms" data = Some (VList items) ->
                      ~ Forall is_dict items ->
                      get_forms app_name s = (Raise AttributeError, after "forms"))
    /\ (dict_get "forms" data = None ->
        get_forms app_name s = (Raise KeyError, after "forms"))
    /\ (dict_get "reports" data = None ->
        get_reports app_name s = (Raise KeyError, after "reports")).
Proof.
  intros app_name s s1 hdrs took response rest data Hheaders Hscript Hdata
    after table.
  unfold get_forms, get_reports.
  rewrite !(get_listing_answered _ _ _ _ _ _ _ _ _ Hheaders Hscript Hdata).
  fold (after "forms"). fold (after "reports").
  repeat apply conj.
  - intros items Hitems Hdicts. rewrite bind_pure. cbn [py_getitem].
    rewrite Hitems, bind_pure. cbn [py_iter].
    now rewrite bind_pure, (collect_details_rows _ _ Hdicts).
  - intros items Hitems Hdicts. rewrite bind_pure. cbn [py_getitem].
    rewrite Hitems, bind_pure. cbn [py_iter].
    now rewrite bind_pure, (collect_details_rows _ _ Hdicts).
  - intros items Hitems Hdicts. rewrite bind_pure. cbn [py_getitem].
    rewrite Hitems, bind_pure. cbn [py_iter].
    now rewrite bind_pure, (collect_details_stops _ _ Hdicts).
  - intros Hnone. rewrite bind_pure. cbn [py_getitem]. now rewrite Hnone.
  - intros Hnone. rewrite bind_pure. cbn [py_getitem]. now rewrite Hnone.
Qed.

Lemma listings_have_one_row_per_entry_witness :
  exists s' s'' : St,
    get_forms "shop" Scenarios.forms_are_listed
    = (Ret {| columns := ["App"; "display_name"; "link_name"];
              rows := [[VStr "shop"; VStr "Orders"; VStr "orders"];
                       [VStr "shop"; VNone; VStr "returns"]] |}, s')
    /\ get_reports "shop" Scenarios.forms_are_listed = (Raise KeyError, s'').
Proof.
  pose proof (listings_have_one_row_per_entry "shop" Scenarios.forms_are_listed
                Scenarios.forms_are_listed
                [("Authorization", VStr "Zoho-oauthtoken bearer-1")] usec
                (Fixtures.answer 200 Scenarios.two_forms) [] _
                eq_refl eq_refl eq_refl) as Hspec.
  cbv zeta in Hspec. destruct Hspec as (Hforms & _ & _ & _ & Hreports).
  assert (Hdicts : Forall is_dict
                     [VDict [("display_name", VStr "Orders");
                             ("link_name", VStr "orders")];
                      VDict [("link_name", VStr "returns")]])
    by (repeat constructor; eexists; reflexivity).
  eexists. eexists. split.
  - exact (Hforms _ eq_refl Hdicts).
  - exact (Hreports eq_refl).
Defined.

End CreatorAnswers.

(** ** The Creator hook: export jobs that go wrong *)

Section ExportJobErrors.

Import Creator.

(** X14. What [create_bulk_api_read_job] does with an answer it cannot use,
    once its request has been sent and answered.  An error status raises
    [HTTPError].  A good status with a body that has no [details], or has
    [null] there, raises [AttributeError].  A [details] object without an
    [id] is no error: the job is returned with [None] for its id.  In none of
    the three cases is the request undone: it is the last entry of the
    trace. *)
Theorem create_bulk_api_read_job_on_bad_answers :
  forall (app_name view_name : string) (cursor : pyval) (s s1 : St)
         (hdrs : pydict) (took : Z) (response : Response)
         (rest : list (Z * (exn + Response))),
    get_headers s = (Ret hdrs, s1) ->
    http_script (world s1) = (took, inr response) :: rest ->
    let bulk_url := bulk_url_of (self s) app_name view_name in
    let s2 := {| self := self s1;
                 world := answered (world s1)
                            (job_request bulk_url hdrs (query_of cursor)) took
                            rest |} in
    (400 <= status_code response < 600 ->
     create_bulk_api_read_job app_name view_name cursor s
     = (Raise HTTPError, s2))
    /\ (forall body : pydict,
          ~ 400 <= status_code response < 600 ->
          response_json response = Ret (VDict body) ->
          dict_get "details" body = None
          \/ dict_get "details" body = Some VNone ->
          create_bulk_api_read_job app_name view_name cursor s
          = (Raise AttributeError, s2))
    /\ (forall body details : pydict,
          ~ 400 <= status_code response < 600 ->
          response_json response = Ret (VDict body) ->
          dict_get "details" body = Some (VDict details) ->
          dict_get "id" details = None ->
          create_bulk_api_read_job app_name view_name cursor s
          = (Ret [("url", VStr bulk_url); ("job_id", VNone); ("cursor", cursor)],
             s2)).
Proof.
  intros app_name view_name cursor s s1 hdrs took response rest Hheaders
    Hscript bulk_url s2.
  assert (Hsent :
    create_bulk_api_read_job app_name view_name cursor s
    = (pure (raise_for_status response);;
       body <- pure (response_json response);;
       details <- pure (py_get body "details");;
       job_id <- pure (py_get details "id");;
       ret [("url", VStr bulk_url); ("job_id", job_id); ("cursor", cursor)]) s2).
  { unfold create_bulk_api_read_job. rewrite bind_gets.
    rewrite (bind_run _ _ _ _ _ Hheaders). subst s2. destruct s1 as [h1 w1].
    cbn [self world] in *.
    now rewrite (bind_run _ _ _ _ _
                   (creator_request h1 w1 _ took response rest Hscript)). }
  rewrite Hsent. repeat apply conj.
  - intros Herror. now rewrite bind_pure, (raise_for_status_error _ Herror).
  - intros body Hfine Hbody Hdetails.
    rewrite bind_pure, (raise_for_status_fine _ Hfine), bind_pure, Hbody,
      bind_pure.
    cbn [py_get]. now destruct Hdetails as [-> | ->].
  - intros body details Hfine Hbody Hdetails Hid.
    rewrite bind_pure, (raise_for_status_fine _ Hfine), bind_pure, Hbody,
      bind_pure.
    cbn [py_get]. rewrite Hdetails, bind_pure. cbn [py_get]. now rewrite Hid.
Qed.

Lemma create_bulk_api_read_job_on_bad_answers_witness :
  exists s' : St,
    create_bulk_api_read_job "shop" "orders" VNone Scenarios.job_is_refused
    = (Raise HTTPError, s')
    /\ Traces.count_http (trace (world s')) = 1%nat.
Proof.
  pose proof (create_bulk_api_read_job_on_bad_answers "shop" "orders" VNone
                Scenarios.job_is_refused Scenarios.job_is_refused
                [("Authorization", VStr "Zoho-oauthtoken bearer-1")] usec _ []
                eq_refl eq_refl) as Hspec.
  cbv zeta in Hspec. destruct Hspec as [Herror _].
  eexists. split.
  - apply Herror. cbn. lia.
  - reflexivity.
Defined.

Variable unzip : list byte -> option (list (string * list byte)).
Variable read_csv : list byte -> option DataFrame.




End ExportJobErrors.

(** ** The operator: its entry point and its last job *)

Section OperatorRuns.

Import Operator OperatorRun.

Variable unzip : list byte -> option (list (string * list byte)).
Variable read_csv : list byte -> option DataFrame.



Lemma creator_hook_raises_or_keeps (poll_fuel : nat) (s s' : St)
  (o : outcome HookObject) :
  creator_hook unzip read_csv poll_fuel s = (o, s') ->
  (o = Raise TypeError /\ s' = s /\ _creator_hook (self s) = None)
  \/ (exists hook, o = Ret hook /\ s' = s /\ _creator_hook (self s) = Some hook).
Proof.
  unfold creator_hook. rewrite bind_gets.
  destruct (_creator_hook (self s)) as [hook |] eqn:Hhook; intros Hrun.
  - right. exists hook. now inversion Hrun.
  - left. now inversion Hrun.
Qed.

(** X17. [execute] cannot finish on the operator as the repository builds
    it.  Fresh from its constructor it raises [TypeError] before it does
    anything, its hook being built without a connection id; and with a
    [ZohoCreatorHook] put into [_creator_hook] by hand it never returns
    either.  When it does return, with some other hook, what it returns is
    the message that names the application, the view and the table. *)
Theorem execute_of_the_operator :
  forall (fuel poll_fuel : nat) (s : St),
    (_creator_hook (self s) = None ->
     execute unzip read_csv fuel poll_fuel s = (Raise TypeError, s))
    /\ (forall (hook_fuel : nat) (h : Creator.Hook),
          _creator_hook (self s)
            = Some {| methods := ZohoCreatorHook unzip read_csv hook_fuel;
                      attrs := h |} ->
          match fst (execute unzip read_csv fuel poll_fuel s) with
          | Ret _ => False
          | _ => True
          end)
    /\ (forall (message : string) (s' : St),
          execute unzip read_csv fuel poll_fuel s = (Ret message, s') ->
          message = ("App_Name:: " ++ app_name (self s) ++ ", View Name:: "
                     ++ view_name (self s) ++ ", Table Name:: "
                     ++ table_name (self s))%string).
Proof.
  intros fuel poll_fuel s. repeat apply conj.
  - intros Hnone. unfold execute. rewrite bind_gets. unfold bind at 1.
    now rewrite (creator_hook_of_new_operator _ _ _ _ Hnone).
  - intros hook_fuel h Hhook.
    destruct (execute unzip read_csv fuel poll_fuel s) as [[m | e |] s'] eqn:Hrun;
      cbn [fst]; try exact I.
    unfold execute in Hrun. rewrite bind_gets in Hrun. unfold bind at 1 in Hrun.
    destruct (creator_hook unzip read_csv poll_fuel s) as [[hook | e |] s0]
      eqn:Hprop; try discriminate Hrun.
    apply creator_hook_raises_or_keeps in Hprop.
    destruct Hprop as [[Hraise _] | [hook' [_ [-> _]]]]; [discriminate Hraise |].
    unfold bind at 1 in Hrun.
    destruct (download_bulk_data unzip read_csv fuel poll_fuel s)
      as [[frame | e |] s1] eqn:Hdata; try discriminate Hrun.
    exact (download_bulk_data_with_creator_hook unzip read_csv _ _ _ _ _ Hhook
             _ _ Hdata).
  - intros message s' Hrun. unfold execute in Hrun. rewrite bind_gets in Hrun.
    unfold bind at 1 in Hrun.
    destruct (creator_hook unzip read_csv poll_fuel s) as [[hook | e |] s0];
      try discriminate Hrun.
    unfold bind at 1 in Hrun.
    destruct (download_bulk_data unzip read_csv fuel poll_fuel s0)
      as [[frame | e |] s1]; try discriminate Hrun.
    now inversion Hrun.
Qed.

End OperatorRuns.


(** ** The Inventory hook: the exceptions of the other entities *)

Section EntityExceptions.

Import Inventory InventoryEntities.

Variable strptime : string -> option Z.





End EntityExceptions.

Example contacts_without_contact_in_answer :
  exists s' : Inventory.St,
    InventoryEntities.contacts Fixtures.strptime_table "20071" "post"
      (VDict [("contact_name", VStr "Ada")]) VNone Scenarios.contact_is_null
    = (Raise AttributeError, s')
    /\ Traces.count_http (trace (Inventory.world s')) = 1%nat.
Proof. eexists. split; [vm_compute; reflexivity | reflexivity]. Qed.

Example refused_refresh_token :
  exists s' : Creator.St,
    Creator.get_token Scenarios.token_is_refused = (Raise KeyError, s')
    /\ Creator.self s' = Creator.self Scenarios.token_is_refused
    /\ Traces.count_http (trace (Creator.world s')) = 1%nat.
Proof.
  eexists. split; [vm_compute; reflexivity | split; reflexivity].
Qed.
